(** * MediaConduit Anthropic provider: API client and provider registry

    A shallow embedding of [AnthropicAPIClient] and of the two versions of
    [AnthropicProvider] found in the repository, together with the
    properties the specification states about them.

    Conventions of the embedding.
    - An optional property ([x?: T]) is an [option]: [None] is JavaScript's
      [undefined], which JSON serialisation leaves out of a request body.
    - JavaScript numbers are IEEE 754 binary64 values: [float].
    - A thrown value is a [JSThrown]; a call that may throw returns a
      [Completion].
    - The HTTP transport (the axios instance) is a [Transport]: a function
      from the calls made so far and the call being made to its reply.
      Every call is appended to a log, so that "no request was issued" is
      a statement about the log.
    - [console.log] and [console.warn] have no effect on any value and are
      left out. *)

From Stdlib Require Import String Ascii List Bool Arith Lia PrimFloat.
Import ListNotations.
Open Scope string_scope.
Open Scope list_scope.

(* ------------------------------------------------------------------ *)
(** ** JavaScript values *)

(** Truthiness of a string: only the empty string is falsy. *)
Definition truthy (s : string) : bool :=
  match s with
  | EmptyString => false
  | String _ _ => true
  end.

(** Truthiness of a possibly undefined string. *)
Definition truthy_opt (o : option string) : bool :=
  match o with
  | Some s => truthy s
  | None => false
  end.

(** [a || b] on possibly undefined strings, [b] being a string. *)
Definition or_else (a : option string) (b : string) : string :=
  match a with
  | Some s => if truthy s then s else b
  | None => b
  end.

(** [a ?? b]. *)
Definition nullish {A : Type} (a : option A) (b : A) : A :=
  match a with
  | Some x => x
  | None => b
  end.

(** [o?.f] for an optional object [o] and an optional property [f]. *)
Definition opt_chain {O A : Type} (o : option O) (f : O -> option A) : option A :=
  match o with
  | Some x => f x
  | None => None
  end.

(** A thrown value: an [Error] object with its message, or anything else. *)
Inductive JSThrown : Type :=
| Error (message : string)
| NonError (shown : string).

(** [error instanceof Error ? error.message : 'Unknown error'] *)
Definition message_of (e : JSThrown) : string :=
  match e with
  | Error m => m
  | NonError _ => "Unknown error"
  end.

Inductive Completion (A : Type) : Type :=
| Return (value : A)
| Throw (thrown : JSThrown).
Arguments Return {A} value.
Arguments Throw {A} thrown.

(* ------------------------------------------------------------------ *)
(** ** [Map<string, V>]

    A JavaScript [Map] iterates in insertion order, and [set] on a key
    that is already present keeps the key's position: an association list
    without duplicate keys. *)

Module JSMap.

Section Ops.
Context {V : Type}.

Definition t : Type := list (string * V).

Definition empty : t := [].

Fixpoint has (k : string) (m : t) : bool :=
    match m with
    | [] => false
    | (k', _) :: rest => if String.eqb k k' then true else has k rest
    end.

Fixpoint get (k : string) (m : t) : option V :=
    match m with
    | [] => None
    | (k', v) :: rest => if String.eqb k k' then Some v else get k rest
    end.

Fixpoint set (k : string) (v : V) (m : t) : t :=
    match m with
    | [] => [(k, v)]
    | (k', v') :: rest =>
        if String.eqb k k' then (k', v) :: rest else (k', v') :: set k v rest
    end.

(** [xs.forEach(x => m.set(key(x), val(x)))] *)
Definition set_each {X : Type} (key : X -> string) (val : X -> V)
    (xs : list X) (m : t) : t :=
  fold_left (fun m x => set (key x) (val x) m) xs m.

Definition keys (m : t) : list string := map fst m.
Definition values (m : t) : list V := map snd m.
Definition size (m : t) : nat := length m.
End Ops.

Arguments t V : clear implicits.

End JSMap.

(* ------------------------------------------------------------------ *)
(** ** AnthropicAPIClient.ts: interfaces *)

(** A property of an object literal that is spread over defaults:
    [None] when the object has no such property, [Some None] when it has
    the property with the value [undefined]. *)
Definition OwnProperty (A : Type) : Type := option (option A).

Module AnthropicConfig.
Record t : Type := mk {
    apiKey : string;
    baseUrl : OwnProperty string;
    timeout : OwnProperty float
  }.
End AnthropicConfig.

Inductive Role : Type := system | user | assistant.

Module AnthropicMessage.
Record t : Type := mk {
    role : Role;
    content : string
  }.
End AnthropicMessage.

Module AnthropicChatRequest.
Record t : Type := mk {
    model : string;
    max_tokens : float;
    messages : list AnthropicMessage.t;
    temperature : option float;
    top_p : option float;
    stop_sequences : option (list string);
    system : option string;
    stream : option bool
  }.
End AnthropicChatRequest.

Module ContentPart.
Record t : Type := mk {
    type : string;
    text : string
  }.
End ContentPart.

Module AnthropicChatResponse.
(** [content] is an [option]: the code tests [!response.data.content]. *)
Record t : Type := mk {
    id : string;
    type : string;
    role : string;
    content : option (list ContentPart.t);
    model : string;
    stop_reason : option string;
    stop_sequence : option string
  }.
End AnthropicChatResponse.

Module AnthropicModel.
Record t : Type := mk {
    id : string;
    display_name : option string;
    created_at : option string;
    type : string
  }.
End AnthropicModel.

Module AnthropicModelsResponse.
(** [data] is an [option]: the provider tests [!models] on it. *)
Record t : Type := mk {
    data : option (list AnthropicModel.t);
    first_id : option string;
    last_id : option string;
    has_more : bool
  }.
End AnthropicModelsResponse.

(* ------------------------------------------------------------------ *)
(** ** The transport *)

Inductive HttpCall : Type :=
| HttpGet (path : string)
| HttpPost (path : string) (body : AnthropicChatRequest.t).

(** What an awaited axios call yields: a response, whose [data] may be
    missing, or a rejection. *)
Inductive AxiosReply (D : Type) : Type :=
| Resolved (data : option D)
| Rejected (reason : JSThrown).
Arguments Resolved {D} data.
Arguments Rejected {D} reason.

Record Transport : Type := {
  on_get : list HttpCall -> string -> AxiosReply AnthropicModelsResponse.t;
  on_post : list HttpCall -> string -> AnthropicChatRequest.t ->
            AxiosReply AnthropicChatResponse.t
}.

(** Computations over the log of calls. *)
Definition Net (A : Type) : Type := list HttpCall -> A * list HttpCall.

Definition client_get (axios : Transport) (path : string)
  : Net (AxiosReply AnthropicModelsResponse.t) :=
  fun log => (on_get axios log path, log ++ [HttpGet path]).

Definition client_post (axios : Transport) (path : string)
    (body : AnthropicChatRequest.t)
  : Net (AxiosReply AnthropicChatResponse.t) :=
  fun log => (on_post axios log path body, log ++ [HttpPost path body]).

(* ------------------------------------------------------------------ *)
(** ** AnthropicAPIClient *)

Module AnthropicAPIClient.

(** The client: its configuration after the defaults were merged in. *)
Record t : Type := mk {
  apiKey : string;
  baseUrl : option string;
  timeout : option float
}.

(** [{ baseUrl: ..., timeout: 300000, ...config }] *)
Definition spread {A : Type} (default : A) (p : OwnProperty A) : option A :=
  match p with
  | None => Some default
  | Some v => v
  end.

Definition constructor (config : AnthropicConfig.t) : t :=
  {| apiKey := AnthropicConfig.apiKey config;
     baseUrl := spread "https://api.anthropic.com/v1" (AnthropicConfig.baseUrl config);
     timeout := spread 300000%float (AnthropicConfig.timeout config) |}.

Definition testConnection (axios : Transport) (this : t) : Net bool :=
  fun log =>
    let '(reply, log') := client_get axios "/models" log in
    match reply with
    | Resolved _ => (true, log')
    | Rejected _ => (false, log')
    end.

(** What [getAvailableModels] does with the reply once it has arrived.
    Reading [response.data.data] off a response without [data] throws
    inside the [try]. *)
Definition getAvailableModels_resume (reply : AxiosReply AnthropicModelsResponse.t)
  : Completion (option (list AnthropicModel.t)) :=
  match reply with
  | Resolved (Some body) => Return (AnthropicModelsResponse.data body)
  | Resolved None =>
      Throw (Error ("Failed to fetch Anthropic models: "
                    ++ "Cannot read properties of undefined (reading 'data')"))
  | Rejected e =>
      Throw (Error ("Failed to fetch Anthropic models: " ++ message_of e))
  end.

Definition getAvailableModels (axios : Transport) (this : t)
  : Net (Completion (option (list AnthropicModel.t))) :=
  fun log =>
    let '(reply, log') := client_get axios "/models" log in
    (getAvailableModels_resume reply, log').

(** The options object of [generateText].  The four declared properties,
    and [others]: whatever further properties the caller's object carries
    at run time, which the declared type does not list and the function
    never reads. *)
Module Options.
Record t : Type := mk {
    temperature : option float;
    maxTokens : option float;
    topP : option float;
    systemPrompt : option string;
    others : list (string * list string)
  }.
End Options.

Definition generateText_messages (prompt : string) (options : option Options.t)
  : list AnthropicMessage.t :=
  let messages := [] in
  let messages :=
    match opt_chain options Options.systemPrompt with
    | Some systemPrompt =>
        if truthy systemPrompt
        then messages ++ [AnthropicMessage.mk system systemPrompt]
        else messages
    | None => messages
    end in
  messages ++ [AnthropicMessage.mk user prompt].

Definition generateText_request (model prompt : string) (options : option Options.t)
  : AnthropicChatRequest.t :=
  {| AnthropicChatRequest.model := model;
     AnthropicChatRequest.max_tokens :=
       nullish (opt_chain options Options.maxTokens) 1024%float;
     AnthropicChatRequest.messages := generateText_messages prompt options;
     AnthropicChatRequest.temperature := opt_chain options Options.temperature;
     AnthropicChatRequest.top_p := opt_chain options Options.topP;
     AnthropicChatRequest.stop_sequences := None;
     AnthropicChatRequest.system := None;
     AnthropicChatRequest.stream := None |}.

(** [parts.map(part => part.text).join('')] *)
Definition join_texts (parts : list ContentPart.t) : string :=
  String.concat "" (map ContentPart.text parts).

(** What [generateText] does with the reply once it has arrived; a
    rejection of the awaited call is rethrown as it is. *)
Definition generateText_resume (reply : AxiosReply AnthropicChatResponse.t)
  : Completion string :=
  match reply with
  | Rejected e => Throw e
  | Resolved None => Throw (Error "No response content returned from Anthropic")
  | Resolved (Some data) =>
      match AnthropicChatResponse.content data with
      | None => Throw (Error "No response content returned from Anthropic")
      | Some parts =>
          if Nat.eqb (length parts) 0
          then Throw (Error "No response content returned from Anthropic")
          else Return (join_texts parts)
      end
  end.

Definition generateText (axios : Transport) (this : t)
    (model prompt : string) (options : option Options.t)
  : Net (Completion string) :=
  fun log =>
    let request := generateText_request model prompt options in
    let '(reply, log') := client_post axios "/messages" request log in
    (generateText_resume reply, log').

End AnthropicAPIClient.

(* ------------------------------------------------------------------ *)
(** ** Types of the host package *)

(** Modelled from the spec: [MediaCapability], [ProviderModel] and
    [ProviderConfig] are imported from the MediaConduit host package,
    whose declarations are not among the sources.  The specification
    describes a descriptor as an identifier, a display name, capability
    tags of which only text generation is used here, and a parameter
    schema mapping a name to type, minimum, maximum and default; the
    fields below are the ones the provider's object literals fill in.
    Capability tags other than the one the provider uses are kept apart
    by name. *)

Inductive MediaCapability : Type :=
| TEXT_TO_TEXT
| OtherCapability (tag : string).

Definition capability_eqb (a b : MediaCapability) : bool :=
  match a, b with
  | TEXT_TO_TEXT, TEXT_TO_TEXT => true
  | OtherCapability s, OtherCapability t => String.eqb s t
  | _, _ => false
  end.

(** [caps.includes(c)] *)
Definition includes (caps : list MediaCapability) (c : MediaCapability) : bool :=
  existsb (capability_eqb c) caps.

Module ParameterSpec.
Record t : Type := mk {
  type : string;
  min : float;
  max : float;
  default : float
}.
End ParameterSpec.

(** The value of a descriptor's [name].  Indexing the name table, an
    object literal, with an identifier that names a member inherited from
    [Object.prototype] yields that member, which is truthy and not a
    string. *)
Inductive DisplayName : Type :=
| NameString (s : string)
| InheritedMember (key : string).

Module ProviderModel.
Record t : Type := mk {
  id : string;
  name : DisplayName;
  description : string;
  capabilities : list MediaCapability;
  parameters : list (string * ParameterSpec.t)
}.
End ProviderModel.

Module ProviderConfig.
Record t : Type := mk {
  apiKey : option string;
  baseUrl : option string;
  timeout : option float
}.
End ProviderConfig.

(** Modelled from the spec: the class [AnthropicTextToTextModel] is
    exported by the package but its file is not among the sources.  The
    specification says that "a generation handle is created bound to that
    model id"; the handle is kept as the argument object its constructor
    receives. *)
Module AnthropicTextToTextModel.
Record t : Type := mk {
  apiClient : AnthropicAPIClient.t;
  modelId : string
}.
End AnthropicTextToTextModel.

(** [process.env] *)
Definition Env : Type := string -> option string.

(* ------------------------------------------------------------------ *)
(** ** AnthropicProvider: the members both versions share

    The two versions of AnthropicProvider.ts differ in the constructor, in
    [configure] and in the routines that fill the registry.  Every member
    defined in this module has the same text in both. *)

Module AnthropicProvider.

Record t : Type := mk {
  config : option ProviderConfig.t;
  apiClient : option AnthropicAPIClient.t;
  discoveredModels : JSMap.t ProviderModel.t
}.

(** The field initialisers. *)
Definition fresh : t :=
  {| config := None; apiClient := None; discoveredModels := JSMap.empty |}.

Definition capabilities : list MediaCapability := [TEXT_TO_TEXT].

Definition with_models (this : t) (m : JSMap.t ProviderModel.t) : t :=
  {| config := config this; apiClient := apiClient this; discoveredModels := m |}.

(** [get models()] *)
Definition models (this : t) : list ProviderModel.t :=
  JSMap.values (discoveredModels this).

Definition isAvailable (axios : Transport) (this : t) : Net bool :=
  fun log =>
    match apiClient this with
    | None => (false, log)
    | Some client => AnthropicAPIClient.testConnection axios client log
    end.

Definition getModelsForCapability (capability : MediaCapability) (this : t)
  : list ProviderModel.t :=
  if capability_eqb capability TEXT_TO_TEXT then models this else [].

Definition supportsTextToTextModel (this : t) (modelId : string) : bool :=
  JSMap.has modelId (discoveredModels this).

Definition createTextToTextModel (this : t) (modelId : string)
  : Net (Completion AnthropicTextToTextModel.t) :=
  fun log =>
    match apiClient this with
    | None => (Throw (Error "Provider not configured"), log)
    | Some client =>
        if negb (supportsTextToTextModel this modelId)
        then (Throw (Error ("Model '" ++ modelId
                            ++ "' is not supported by Anthropic provider")), log)
        else (Return (AnthropicTextToTextModel.mk client modelId), log)
    end.

Definition getModel (this : t) (modelId : string)
  : Net (Completion AnthropicTextToTextModel.t) :=
  fun log =>
    match apiClient this with
    | None =>
        (Throw (Error ("Provider not configured - set ANTHROPIC_API_KEY "
                       ++ "environment variable or call configure()")), log)
    | Some _ => createTextToTextModel this modelId log
    end.

Definition nameMap : list (string * string) :=
  [ ("claude-3-5-sonnet-latest", "Claude 3.5 Sonnet (Latest)");
    ("claude-3-5-haiku-latest", "Claude 3.5 Haiku (Latest)");
    ("claude-3-opus-latest", "Claude 3 Opus (Latest)");
    ("claude-3-5-sonnet-20241022", "Claude 3.5 Sonnet (Oct 2024)");
    ("claude-3-5-sonnet-20240620", "Claude 3.5 Sonnet (Jun 2024)");
    ("claude-3-5-haiku-20241022", "Claude 3.5 Haiku (Oct 2024)");
    ("claude-3-opus-20240229", "Claude 3 Opus");
    ("claude-3-sonnet-20240229", "Claude 3 Sonnet");
    ("claude-3-haiku-20240307", "Claude 3 Haiku");
    ("claude-2.1", "Claude 2.1");
    ("claude-2.0", "Claude 2.0") ].

(** The members every object literal inherits. *)
Definition object_prototype_members : list string :=
  [ "constructor"; "__proto__"; "hasOwnProperty"; "isPrototypeOf";
    "propertyIsEnumerable"; "toLocaleString"; "toString"; "valueOf";
    "__defineGetter__"; "__defineSetter__"; "__lookupGetter__";
    "__lookupSetter__" ].

(** [\w] *)
Definition is_word (c : ascii) : bool :=
  let n := nat_of_ascii c in
  (((48 <=? n) && (n <=? 57)) || ((65 <=? n) && (n <=? 90))
   || ((97 <=? n) && (n <=? 122)) || (n =? 95))%nat.

(** [l.toUpperCase()] on one character matched by [\w]. *)
Definition toUpperCase (c : ascii) : ascii :=
  let n := nat_of_ascii c in
  if ((97 <=? n) && (n <=? 122))%nat then ascii_of_nat (n - 32) else c.

(** [.replace(/-/g, ' ')] *)
Fixpoint hyphens_to_spaces (s : string) : string :=
  match s with
  | EmptyString => EmptyString
  | String c rest =>
      String (if Ascii.eqb c "-" then " "%char else c) (hyphens_to_spaces rest)
  end.

(** [.replace(/\b\w/g, l => l.toUpperCase())]; [inside] tells whether the
    character before the current one is a word character. *)
Fixpoint capitalise_words (inside : bool) (s : string) : string :=
  match s with
  | EmptyString => EmptyString
  | String c rest =>
      String (if is_word c && negb inside then toUpperCase c else c)
             (capitalise_words (is_word c) rest)
  end.

Definition getModelDisplayName (modelId : string) : DisplayName :=
  match JSMap.get modelId nameMap with
  | Some friendly => NameString friendly
  | None =>
      if existsb (String.eqb modelId) object_prototype_members
      then InheritedMember modelId
      else NameString (capitalise_words false (hyphens_to_spaces modelId))
  end.

Definition getSupportedTextToTextModels (this : t) : list string :=
  filter (fun id =>
            match JSMap.get id (discoveredModels this) with
            | Some m => includes (ProviderModel.capabilities m) TEXT_TO_TEXT
            | None => false
            end)
         (JSMap.keys (discoveredModels this)).

Definition stopService (this : t) : bool := true.

(** [0.7], as the binary64 value nearest to it. *)
Definition default_temperature : float := 0x1.6666666666666p-1%float.

(** The [parameters] literal, the same in all three population routines. *)
Definition parameters : list (string * ParameterSpec.t) :=
  [ ("temperature", ParameterSpec.mk "number" 0%float 1%float default_temperature);
    ("max_tokens", ParameterSpec.mk "number" 1%float 100000%float 1024%float);
    ("top_p", ParameterSpec.mk "number" 0%float 1%float 1%float) ].

Inductive HealthStatus : Type := healthy | unhealthy.

Module Health.
Record t : Type := mk {
  status : HealthStatus;
  uptime : float;
  activeJobs : float;
  queuedJobs : float;
  lastError : option string
}.
End Health.

(** [uptime] is what [process.uptime()] returns when the object is built. *)
Definition getHealth (uptime : float) (axios : Transport) (this : t)
  : Net Health.t :=
  fun log =>
    let '(available, log') := isAvailable axios this log in
    ({| Health.status := if available then healthy else unhealthy;
        Health.uptime := uptime;
        Health.activeJobs := 0%float;
        Health.queuedJobs := 0%float;
        Health.lastError :=
          if available then None else Some "API connection failed" |},
     log').

Definition startService (axios : Transport) (this : t) : Net bool :=
  isAvailable axios this.

Module ServiceStatus.
Record t : Type := mk {
  running : bool;
  healthy : bool;
  error : option string
}.
End ServiceStatus.

Definition getServiceStatus (axios : Transport) (this : t)
  : Net ServiceStatus.t :=
  fun log =>
    let '(available, log') := isAvailable axios this log in
    ({| ServiceStatus.running := true;
        ServiceStatus.healthy := available;
        ServiceStatus.error := None |},
     log').

End AnthropicProvider.

(* ------------------------------------------------------------------ *)
(** ** The provider and its surroundings *)

(** What an awaited [getAvailableModels] yields. *)
Definition Listing : Type := Completion (option (list AnthropicModel.t)).

(** A provider, the log of the calls made through its transport, and the
    model discovery the constructor may have left running. *)
Record World : Type := {
  this : AnthropicProvider.t;
  net : list HttpCall;
  background : option Listing
}.

(** The part of the world a method that is awaited to its end works on. *)
Definition Act (A : Type) : Type :=
  AnthropicProvider.t -> list HttpCall ->
  Completion A * AnthropicProvider.t * list HttpCall.

(* ------------------------------------------------------------------ *)
(** ** AnthropicProvider, first version: known models, seeded at once *)

Module Seeded.
Import AnthropicProvider.

Definition knownModels : list string :=
  [ "claude-3-5-sonnet-latest";
    "claude-3-5-haiku-latest";
    "claude-3-opus-latest";
    "claude-3-5-sonnet-20241022";
    "claude-3-5-sonnet-20240620";
    "claude-3-5-haiku-20241022";
    "claude-3-opus-20240229";
    "claude-3-sonnet-20240229";
    "claude-3-haiku-20240307";
    "claude-2.1";
    "claude-2.0" ].

Definition known_entry (id : string) : ProviderModel.t :=
  {| ProviderModel.id := id;
     ProviderModel.name := getModelDisplayName id;
     ProviderModel.description := "Anthropic Claude model: " ++ id;
     ProviderModel.capabilities := [TEXT_TO_TEXT];
     ProviderModel.parameters := parameters |}.

Definition initializeKnownClaudeModels (this : t) : t :=
  with_models this
    (JSMap.set_each (fun id => id) known_entry
                    knownModels (discoveredModels this)).

Definition constructor (parseInt : string -> float) (env : Env) : World :=
  let this := fresh in
  let this :=
    match env "ANTHROPIC_API_KEY" with
    | None => this
    | Some apiKey =>
        if truthy apiKey then
          let anthropicConfig :=
            {| AnthropicConfig.apiKey := apiKey;
               AnthropicConfig.baseUrl :=
                 if truthy_opt (env "ANTHROPIC_BASE_URL")
                 then Some (env "ANTHROPIC_BASE_URL") else None;
               AnthropicConfig.timeout :=
                 match env "ANTHROPIC_TIMEOUT" with
                 | Some ms => if truthy ms then Some (Some (parseInt ms)) else None
                 | None => None
                 end |} in
          initializeKnownClaudeModels
            {| config := Some (ProviderConfig.mk (Some apiKey) None None);
               apiClient := Some (AnthropicAPIClient.constructor anthropicConfig);
               discoveredModels := discoveredModels this |}
        else this
    end in
  {| this := this; net := []; background := None |}.

Definition configure (config : ProviderConfig.t) : Act unit :=
  fun this log =>
    let this := {| AnthropicProvider.config := Some config;
                   apiClient := apiClient this;
                   discoveredModels := discoveredModels this |} in
    match ProviderConfig.apiKey config with
    | None => (Throw (Error "Anthropic API key is required"), this, log)
    | Some apiKey =>
        if negb (truthy apiKey)
        then (Throw (Error "Anthropic API key is required"), this, log)
        else
          let anthropicConfig :=
            {| AnthropicConfig.apiKey := apiKey;
               AnthropicConfig.baseUrl := Some (ProviderConfig.baseUrl config);
               AnthropicConfig.timeout := Some (ProviderConfig.timeout config) |} in
          let this := {| AnthropicProvider.config := AnthropicProvider.config this;
                         apiClient := Some (AnthropicAPIClient.constructor anthropicConfig);
                         discoveredModels := discoveredModels this |} in
          let this :=
            if Nat.eqb (JSMap.size (discoveredModels this)) 0
            then initializeKnownClaudeModels this else this in
          (Return tt, this, log)
    end.

End Seeded.

(* ------------------------------------------------------------------ *)
(** ** AnthropicProvider, second version: models discovered remotely *)

Module Discovering.
Import AnthropicProvider.

Definition fallbackModels : list string :=
  [ "claude-3-5-sonnet-latest";
    "claude-3-5-haiku-latest";
    "claude-3-opus-latest" ].

Definition fallback_entry (id : string) : ProviderModel.t :=
  {| ProviderModel.id := id;
     ProviderModel.name := getModelDisplayName id;
     ProviderModel.description := "Anthropic Claude model: " ++ id ++ " (fallback)";
     ProviderModel.capabilities := [TEXT_TO_TEXT];
     ProviderModel.parameters := parameters |}.

Definition initializeFallbackModels (this : t) : t :=
  with_models this
    (JSMap.set_each (fun id => id) fallback_entry
                    fallbackModels (discoveredModels this)).

Definition discovered_entry (model : AnthropicModel.t) : ProviderModel.t :=
  {| ProviderModel.id := AnthropicModel.id model;
     ProviderModel.name :=
       match AnthropicModel.display_name model with
       | Some label =>
           if truthy label then NameString label
           else getModelDisplayName (AnthropicModel.id model)
       | None => getModelDisplayName (AnthropicModel.id model)
       end;
     ProviderModel.description :=
       "Anthropic Claude model: "
       ++ or_else (AnthropicModel.display_name model) (AnthropicModel.id model);
     ProviderModel.capabilities := [TEXT_TO_TEXT];
     ProviderModel.parameters := parameters |}.

(** [discoverModels] from the point where the awaited listing arrives:
    the rest of the [try] block, and the [catch]. *)
Definition discoverModels_resume (listing : Listing) (this : t)
  : Completion unit * t :=
  match listing with
  | Throw _ => (Return tt, initializeFallbackModels this)
  | Return None => (Return tt, initializeFallbackModels this)
  | Return (Some models) =>
      if Nat.eqb (length models) 0
      then (Return tt, initializeFallbackModels this)
      else
        (Return tt,
         with_models this
           (JSMap.set_each AnthropicModel.id discovered_entry
                           models (discoveredModels this)))
  end.

(** [discoverModels], awaited to its end. *)
Definition discoverModels (axios : Transport) : Act unit :=
  fun this log =>
    match apiClient this with
    | None => (Return tt, this, log)
    | Some client =>
        let '(listing, log') :=
          AnthropicAPIClient.getAvailableModels axios client log in
        let '(result, this') := discoverModels_resume listing this in
        (result, this', log')
    end.

(** The constructor calls [discoverModels] without awaiting it: the
    request is made, and the rest of the routine runs when the reply
    arrives, after the constructor has returned. *)
Definition constructor (parseInt : string -> float) (axios : Transport) (env : Env)
  : World :=
  let this := fresh in
  match env "ANTHROPIC_API_KEY" with
  | None => {| this := this; net := []; background := None |}
  | Some apiKey =>
      if truthy apiKey then
        let anthropicConfig :=
          {| AnthropicConfig.apiKey := apiKey;
             AnthropicConfig.baseUrl := Some (env "ANTHROPIC_BASE_URL");
             AnthropicConfig.timeout :=
               Some (match env "ANTHROPIC_TIMEOUT" with
                     | Some ms => if truthy ms then Some (parseInt ms) else None
                     | None => None
                     end) |} in
        let client := AnthropicAPIClient.constructor anthropicConfig in
        let this :=
          {| config := Some (ProviderConfig.mk (Some apiKey) None None);
             apiClient := Some client;
             discoveredModels := discoveredModels this |} in
        let '(listing, log) :=
          AnthropicAPIClient.getAvailableModels axios client [] in
        {| this := this; net := log; background := Some listing |}
      else {| this := this; net := []; background := None |}
  end.

Definition configure (axios : Transport) (config : ProviderConfig.t) : Act unit :=
  fun this log =>
    let this := {| AnthropicProvider.config := Some config;
                   apiClient := apiClient this;
                   discoveredModels := discoveredModels this |} in
    match ProviderConfig.apiKey config with
    | None => (Throw (Error "Anthropic API key is required"), this, log)
    | Some apiKey =>
        if negb (truthy apiKey)
        then (Throw (Error "Anthropic API key is required"), this, log)
        else
          let anthropicConfig :=
            {| AnthropicConfig.apiKey := apiKey;
               AnthropicConfig.baseUrl := Some (ProviderConfig.baseUrl config);
               AnthropicConfig.timeout := Some (ProviderConfig.timeout config) |} in
          let this := {| AnthropicProvider.config := AnthropicProvider.config this;
                         apiClient := Some (AnthropicAPIClient.constructor anthropicConfig);
                         discoveredModels := discoveredModels this |} in
          discoverModels axios this log
    end.

End Discovering.

(* ------------------------------------------------------------------ *)
(** ** A provider's lifetime

    A provider is built by the constructor of its version and then used
    through its public members.  [Settle] is the moment the discovery the
    constructor left running receives its reply. *)

Inductive Version : Type :=
| SyncSeeding
| BackgroundDiscovery.

Inductive Call : Type :=
| Configure (config : ProviderConfig.t)
| IsAvailable
| CreateTextToTextModel (modelId : string)
| GetModel (modelId : string)
| GenerateText (model prompt : string)
               (options : option AnthropicAPIClient.Options.t)
| Settle.

Definition construct (v : Version) (parseInt : string -> float)
    (axios : Transport) (env : Env) : World :=
  match v with
  | SyncSeeding => Seeded.constructor parseInt env
  | BackgroundDiscovery => Discovering.constructor parseInt axios env
  end.

Definition configure (v : Version) (axios : Transport)
    (config : ProviderConfig.t) : Act unit :=
  match v with
  | SyncSeeding => Seeded.configure config
  | BackgroundDiscovery => Discovering.configure axios config
  end.

Definition perform (v : Version) (axios : Transport) (c : Call) (w : World)
  : World :=
  match c with
  | Configure config =>
      let '(_, this', log') := configure v axios config (this w) (net w) in
      {| this := this'; net := log'; background := background w |}
  | IsAvailable =>
      let '(_, log') := AnthropicProvider.isAvailable axios (this w) (net w) in
      {| this := this w; net := log'; background := background w |}
  | CreateTextToTextModel modelId =>
      let '(_, log') :=
        AnthropicProvider.createTextToTextModel (this w) modelId (net w) in
      {| this := this w; net := log'; background := background w |}
  | GetModel modelId =>
      let '(_, log') := AnthropicProvider.getModel (this w) modelId (net w) in
      {| this := this w; net := log'; background := background w |}
  | GenerateText model prompt options =>
      match AnthropicProvider.apiClient (this w) with
      | None => w
      | Some client =>
          let '(_, log') :=
            AnthropicAPIClient.generateText axios client model prompt options
                                            (net w) in
          {| this := this w; net := log'; background := background w |}
      end
  | Settle =>
      match background w with
      | None => w
      | Some listing =>
          let '(_, this') := Discovering.discoverModels_resume listing (this w) in
          {| this := this'; net := net w; background := None |}
      end
  end.

Definition run (v : Version) (axios : Transport) (calls : list Call) (w : World)
  : World :=
  fold_left (fun w c => perform v axios c w) calls w.

Definition reachable (v : Version) (parseInt : string -> float)
    (axios : Transport) (env : Env) (w : World) : Prop :=
  exists calls, w = run v axios calls (construct v parseInt axios env).

(** The registry is uniform when every entry sits under its own
    identifier and carries the one capability tag. *)
Definition uniform_entry (e : string * ProviderModel.t) : Prop :=
  ProviderModel.id (snd e) = fst e
  /\ ProviderModel.capabilities (snd e) = [TEXT_TO_TEXT].

Definition uniform (m : JSMap.t ProviderModel.t) : Prop :=
  Forall uniform_entry m.

(** A listing the discovery can use: an array with at least one model. *)
Definition populated (listing : Listing) : bool :=
  match listing with
  | Return (Some (_ :: _)) => true
  | _ => false
  end.

(* ------------------------------------------------------------------ *)
(** ** Concrete surroundings used in the examples *)

Definition no_parse : string -> float := fun _ => 0%float.

Definition env_with_key : Env :=
  fun name => if String.eqb name "ANTHROPIC_API_KEY" then Some "sk-test" else None.

(** No network: every call is rejected. *)
Definition offline : Transport :=
  {| on_get := fun _ _ => Rejected (Error "connect ECONNREFUSED");
     on_post := fun _ _ _ => Rejected (Error "connect ECONNREFUSED") |}.

Definition listed (ids : list string) : AxiosReply AnthropicModelsResponse.t :=
  Resolved (Some
    {| AnthropicModelsResponse.data :=
         Some (map (fun id => AnthropicModel.mk id None None "model") ids);
       AnthropicModelsResponse.first_id := None;
       AnthropicModelsResponse.last_id := None;
       AnthropicModelsResponse.has_more := false |}).

Definition replied (parts : option (list ContentPart.t))
  : AxiosReply AnthropicChatResponse.t :=
  Resolved (Some
    {| AnthropicChatResponse.id := "msg_1";
       AnthropicChatResponse.type := "message";
       AnthropicChatResponse.role := "assistant";
       AnthropicChatResponse.content := parts;
       AnthropicChatResponse.model := "model-x";
       AnthropicChatResponse.stop_reason := Some "end_turn";
       AnthropicChatResponse.stop_sequence := None |}).

(** A server that lists the given identifiers and answers every message
    with the given content. *)
Definition serving (ids : list string) (parts : option (list ContentPart.t))
  : Transport :=
  {| on_get := fun _ _ => listed ids;
     on_post := fun _ _ _ => replied parts |}.

(** A server that rejects the first call and lists one model afterwards. *)
Definition recovering : Transport :=
  {| on_get := fun log _ =>
       match log with
       | [] => Rejected (Error "connect ECONNREFUSED")
       | _ :: _ => listed ["claude-sonnet-4"]
       end;
     on_post := fun _ _ _ => Rejected (Error "connect ECONNREFUSED") |}.

Definition test_client : AnthropicAPIClient.t :=
  AnthropicAPIClient.constructor (AnthropicConfig.mk "sk-test" None None).

Definition key_config : ProviderConfig.t :=
  ProviderConfig.mk (Some "sk-test") None None.

(** A provider of the second version whose background discovery was
    rejected, so that its registry holds the fallback models. *)
Definition after_failed_discovery : World :=
  run BackgroundDiscovery recovering [Settle]
      (construct BackgroundDiscovery no_parse recovering env_with_key).

(* ------------------------------------------------------------------ *)
(** ** Notions used in the statements below *)

(** The two requests the package ever makes. *)
Definition own_traffic (c : HttpCall) : bool :=
  match c with
  | HttpGet path => String.eqb path "/models"
  | HttpPost path _ => String.eqb path "/messages"
  end.

Definition is_get (c : HttpCall) : bool :=
  match c with
  | HttpGet _ => true
  | HttpPost _ _ => false
  end.

Definition is_generate (c : Call) : bool :=
  match c with
  | GenerateText _ _ _ => true
  | _ => false
  end.

(** A use of a provider: one of the calls above, or one of the three
    probes built on [isAvailable]. *)
Inductive Invocation : Type :=
| Invoke (c : Call)
| InvokeGetHealth (uptime : float)
| InvokeStartService
| InvokeGetServiceStatus.

Definition invoke (v : Version) (axios : Transport) (i : Invocation) (w : World)
  : World :=
  match i with
  | Invoke c => perform v axios c w
  | InvokeGetHealth uptime =>
      let '(_, log') :=
        AnthropicProvider.getHealth uptime axios (this w) (net w) in
      {| this := this w; net := log'; background := background w |}
  | InvokeStartService =>
      let '(_, log') := AnthropicProvider.startService axios (this w) (net w) in
      {| this := this w; net := log'; background := background w |}
  | InvokeGetServiceStatus =>
      let '(_, log') :=
        AnthropicProvider.getServiceStatus axios (this w) (net w) in
      {| this := this w; net := log'; background := background w |}
  end.

Definition invoke_all (v : Version) (axios : Transport)
    (invocations : list Invocation) (w : World) : World :=
  fold_left (fun w i => invoke v axios i w) invocations w.

Definition generates (i : Invocation) : bool :=
  match i with
  | Invoke c => is_generate c
  | _ => false
  end.

Definition total_length (parts : list ContentPart.t) : nat :=
  fold_right (fun part n => String.length (ContentPart.text part) + n) 0 parts.

Definition default_baseUrl : string := "https://api.anthropic.com/v1".

(** The registry the first version holds once it has a client. *)
Definition known_registry : JSMap.t ProviderModel.t :=
  AnthropicProvider.discoveredModels
    (Seeded.initializeKnownClaudeModels AnthropicProvider.fresh).

Definition is_lower (c : ascii) : bool :=
  let n := nat_of_ascii c in ((97 <=? n) && (n <=? 122))%nat.

Fixpoint string_forall (p : ascii -> bool) (s : string) : bool :=
  match s with
  | EmptyString => true
  | String c rest => p c && string_forall p rest
  end.

(** No lower-case letter begins a word: [inside] tells whether the
    character before the current one is a word character. *)
Fixpoint title_cased (inside : bool) (s : string) : bool :=
  match s with
  | EmptyString => true
  | String c rest =>
      (inside || negb (is_lower c))
      && title_cased (AnthropicProvider.is_word c) rest
  end.

Definition not_hyphen (c : ascii) : bool := negb (Ascii.eqb c "-").

(** A provider without a client has an empty registry and no discovery
    under way. *)
Definition client_precedes_models (w : World) : Prop :=
  AnthropicProvider.apiClient (this w) = None ->
  AnthropicProvider.discoveredModels (this w) = [] /\ background w = None.

(** An environment with an API key and a base URL override. *)
Definition env_with_url : Env :=
  fun name =>
    if String.eqb name "ANTHROPIC_API_KEY" then Some "sk-test"
    else if String.eqb name "ANTHROPIC_BASE_URL" then Some "https://proxy.test/v1"
    else None.

Definition env_without_key : Env := fun _ => None.

(* ------------------------------------------------------------------ *)
(** * Properties *)

(** ** The registry map *)

Section JSMapFacts.
Context {V : Type}.
Implicit Types (m : JSMap.t V) (k : string) (v : V).

Lemma has_set k k' v m :
  JSMap.has k (JSMap.set k' v m) = String.eqb k k' || JSMap.has k m.
Proof.
  induction m as [|[k0 v0] rest IH]; simpl.
  - destruct (String.eqb k k'); reflexivity.
  - destruct (String.eqb_spec k' k0) as [->|Hne]; simpl.
    + destruct (String.eqb k k0); reflexivity.
    + rewrite IH. destruct (String.eqb k k0), (String.eqb k k'); reflexivity.
Qed.

Lemma set_not_empty k v m : JSMap.set k v m <> [].
Proof.
  destruct m as [|[k0 v0] rest]; simpl; [discriminate|].
  destruct (String.eqb k k0); discriminate.
Qed.

Lemma set_entries k v m e :
  In e (JSMap.set k v m) -> In e m \/ e = (k, v).
Proof.
  induction m as [|[k0 v0] rest IH]; simpl.
  - intros [<-|[]]. now right.
  - destruct (String.eqb_spec k k0) as [->|Hne]; simpl.
    + intros [<-|Hin]; [now right | left; now right].
    + intros [<-|Hin]; [left; now left|].
      destruct (IH Hin) as [H|H]; [left; now right | now right].
Qed.

Lemma has_keys k m : JSMap.has k m = true <-> In k (JSMap.keys m).
Proof.
  induction m as [|[k0 v0] rest IH]; simpl.
  - split; [discriminate | tauto].
  - destruct (String.eqb_spec k k0) as [->|Hne].
    + split; auto.
    + rewrite IH. split; [now right | intros [H|H]; congruence].
Qed.

Lemma get_entry k m :
  In k (JSMap.keys m) -> exists v, JSMap.get k m = Some v /\ In (k, v) m.
Proof.
  induction m as [|[k0 v0] rest IH]; simpl; [tauto|].
  intros Hin. destruct (String.eqb_spec k k0) as [->|Hne].
  - exists v0. split; [reflexivity | now left].
  - destruct Hin as [H|H]; [congruence|].
    destruct (IH H) as (v & Hget & Hv). exists v. split; [assumption | now right].
Qed.

Section SetEach.
Context {X : Type} (key : X -> string) (val : X -> V).

Lemma has_set_each k xs m :
  JSMap.has k (JSMap.set_each key val xs m) = true
  <-> JSMap.has k m = true \/ In k (map key xs).
Proof.
  unfold JSMap.set_each. revert m.
  induction xs as [|x xs IH]; intros m; simpl.
  - tauto.
  - rewrite IH, has_set, orb_true_iff.
    destruct (String.eqb_spec k (key x)) as [->|Hne]; intuition congruence.
Qed.

Lemma set_each_not_empty xs m :
  xs <> [] -> JSMap.set_each key val xs m <> [].
Proof.
  unfold JSMap.set_each. intros Hxs Hempty.
  assert (Hall : forall ys m', m' <> [] ->
            fold_left (fun m x => JSMap.set (key x) (val x) m) ys m' <> []).
  { induction ys as [|y ys IH]; intros m' Hm'; simpl; [assumption|].
    apply IH, set_not_empty. }
  destruct xs as [|x xs]; [congruence|].
  simpl in Hempty. revert Hempty. apply Hall, set_not_empty.
Qed.

Lemma set_each_entries xs m e :
  In e (JSMap.set_each key val xs m) -> In e m \/ exists x, In x xs /\ e = (key x, val x).
Proof.
  unfold JSMap.set_each. revert m.
  induction xs as [|x xs IH]; intros m; simpl.
  - now left.
  - intros Hin. destruct (IH _ Hin) as [H|(y & Hy & ->)].
    + destruct (set_entries _ _ _ _ H) as [H'| ->]; [now left|].
      right. exists x. split; [now left | reflexivity].
    + right. exists y. split; [now right | reflexivity].
Qed.

End SetEach.

Lemma get_set k k' v m :
  JSMap.get k (JSMap.set k' v m)
  = if String.eqb k k' then Some v else JSMap.get k m.
Proof.
  induction m as [|[k0 v0] rest IH]; simpl.
  - reflexivity.
  - destruct (String.eqb_spec k' k0) as [->|Hne]; simpl.
    + destruct (String.eqb k k0); reflexivity.
    + rewrite IH. destruct (String.eqb_spec k k0) as [->|Hne'].
      * destruct (String.eqb_spec k0 k'); [congruence | reflexivity].
      * reflexivity.
Qed.

Lemma get_set_each_by_id (val : string -> V) k ids m :
  JSMap.get k (JSMap.set_each (fun id => id) val ids m)
  = if existsb (String.eqb k) ids then Some (val k) else JSMap.get k m.
Proof.
  unfold JSMap.set_each. revert m.
  induction ids as [|id ids IH]; intros m; simpl.
  - reflexivity.
  - rewrite IH, get_set.
    destruct (existsb (String.eqb k) ids); [now rewrite orb_true_r|].
    rewrite orb_false_r.
    destruct (String.eqb_spec k id) as [->|Hne]; reflexivity.
Qed.

End JSMapFacts.

Lemma filter_all {A : Type} (f : A -> bool) (l : list A) :
  (forall x, In x l -> f x = true) -> filter f l = l.
Proof.
  induction l as [|a l IH]; simpl; intros H; [reflexivity|].
  rewrite (H a (or_introl eq_refl)). f_equal. apply IH. intros x Hx.
  apply H. now right.
Qed.

(** ** The uniformity of the registry *)

Lemma uniform_set_each {X : Type} (key : X -> string) (val : X -> ProviderModel.t)
    (xs : list X) (m : JSMap.t ProviderModel.t) :
  (forall x, uniform_entry (key x, val x)) ->
  uniform m -> uniform (JSMap.set_each key val xs m).
Proof.
  intros Hnew Hm. apply Forall_forall. intros e Hin.
  destruct (set_each_entries key val xs m e Hin) as [H|(x & _ & ->)].
  - exact (proj1 (Forall_forall _ _) Hm e H).
  - apply Hnew.
Qed.

Lemma uniform_known this :
  uniform (AnthropicProvider.discoveredModels this) ->
  uniform (AnthropicProvider.discoveredModels
             (Seeded.initializeKnownClaudeModels this)).
Proof.
  intros H. apply (uniform_set_each (fun id => id) Seeded.known_entry).
  - intros id. split; reflexivity.
  - exact H.
Qed.

Lemma uniform_fallback this :
  uniform (AnthropicProvider.discoveredModels this) ->
  uniform (AnthropicProvider.discoveredModels
             (Discovering.initializeFallbackModels this)).
Proof.
  intros H. apply (uniform_set_each (fun id => id) Discovering.fallback_entry).
  - intros id. split; reflexivity.
  - exact H.
Qed.

Lemma uniform_resume listing this :
  uniform (AnthropicProvider.discoveredModels this) ->
  uniform (AnthropicProvider.discoveredModels
             (snd (Discovering.discoverModels_resume listing this))).
Proof.
  intros H. unfold Discovering.discoverModels_resume.
  destruct listing as [[models|]|e]; simpl; try now apply uniform_fallback.
  destruct (Nat.eqb (length models) 0); simpl; [now apply uniform_fallback|].
  apply (uniform_set_each AnthropicModel.id Discovering.discovered_entry).
  - intros x. split; reflexivity.
  - exact H.
Qed.

(** ** Creating a generation handle *)

(** C1.  On a configured provider, asking for a handle on a model
    identifier that is not in the registry throws the unsupported-model
    error, from [createTextToTextModel] and from [getModel] alike, and the
    log of transport calls is left as it was: nothing was requested. *)
Theorem unsupported_model_rejected_before_transport
    (this : AnthropicProvider.t) (client : AnthropicAPIClient.t)
    (modelId : string) (log : list HttpCall) :
  AnthropicProvider.apiClient this = Some client ->
  AnthropicProvider.supportsTextToTextModel this modelId = false ->
  AnthropicProvider.createTextToTextModel this modelId log
  = (Throw (Error ("Model '" ++ modelId
                   ++ "' is not supported by Anthropic provider")), log)
  /\ AnthropicProvider.getModel this modelId log
     = (Throw (Error ("Model '" ++ modelId
                      ++ "' is not supported by Anthropic provider")), log).
Proof.
  intros Hclient Hmissing.
  unfold AnthropicProvider.getModel, AnthropicProvider.createTextToTextModel.
  rewrite Hclient, Hmissing. simpl. split; reflexivity.
Qed.

Lemma unsupported_model_rejected_witness :
  let this := this (Seeded.constructor no_parse env_with_key) in
  AnthropicProvider.createTextToTextModel this "gpt-4" []
  = (Throw (Error "Model 'gpt-4' is not supported by Anthropic provider"), [])
  /\ AnthropicProvider.getModel this "gpt-4" []
     = (Throw (Error "Model 'gpt-4' is not supported by Anthropic provider"), []).
Proof.
  apply (unsupported_model_rejected_before_transport
           (this (Seeded.constructor no_parse env_with_key))
           (AnthropicAPIClient.constructor
              (AnthropicConfig.mk "sk-test" None None))
           "gpt-4" []); reflexivity.
Defined.

(** C8.  Without an API client, [createTextToTextModel] and [getModel]
    throw their configuration errors whatever the model identifier and
    whatever the registry holds: the client is tested before the
    registry is looked at.  Nothing is requested either. *)
Theorem unconfigured_provider_rejects_first
    (this : AnthropicProvider.t) (modelId : string) (log : list HttpCall) :
  AnthropicProvider.apiClient this = None ->
  AnthropicProvider.createTextToTextModel this modelId log
  = (Throw (Error "Provider not configured"), log)
  /\ AnthropicProvider.getModel this modelId log
     = (Throw (Error "Provider not configured - set ANTHROPIC_API_KEY environment variable or call configure()"),
        log).
Proof.
  intros Hnone.
  unfold AnthropicProvider.getModel, AnthropicProvider.createTextToTextModel.
  rewrite Hnone. split; reflexivity.
Qed.

(** The witness holds the requested model in its registry and still gets
    the configuration error. *)
Lemma unconfigured_provider_witness :
  let this :=
    Seeded.initializeKnownClaudeModels AnthropicProvider.fresh in
  AnthropicProvider.supportsTextToTextModel this "claude-2.1" = true
  /\ AnthropicProvider.createTextToTextModel this "claude-2.1" []
     = (Throw (Error "Provider not configured"), [])
  /\ AnthropicProvider.getModel this "claude-2.1" []
     = (Throw (Error "Provider not configured - set ANTHROPIC_API_KEY environment variable or call configure()"),
        []).
Proof.
  split; [reflexivity|].
  apply (unconfigured_provider_rejects_first
           (Seeded.initializeKnownClaudeModels AnthropicProvider.fresh)
           "claude-2.1" []).
  reflexivity.
Defined.

(** ** Text generation *)

(** [generateText] makes one call: a POST of the request it built. *)
Lemma generateText_posts_request axios client model prompt options log :
  snd (AnthropicAPIClient.generateText axios client model prompt options log)
  = log ++ [HttpPost "/messages"
              (AnthropicAPIClient.generateText_request model prompt options)].
Proof. reflexivity. Qed.

(** C4, as it is stated, fails: stop sequences carried by the options
    object do not reach the request. *)
Lemma stop_sequences_not_passed_through :
  ~ (forall (model prompt : string) (options : AnthropicAPIClient.Options.t),
        AnthropicChatRequest.stop_sequences
          (AnthropicAPIClient.generateText_request model prompt (Some options))
        = JSMap.get "stop_sequences" (AnthropicAPIClient.Options.others options)).
Proof.
  intros H.
  specialize (H "model-x" "hello"
                (AnthropicAPIClient.Options.mk None None None None
                   [("stop_sequences", ["END"])])).
  discriminate H.
Qed.

(** C4, amended.  Every call to [generateText] posts one request to
    [/messages].  Its [model] is the model given, its [max_tokens] is
    [options.maxTokens] when that is supplied and 1024 otherwise, its
    [messages] are the list built from the prompt; [temperature] and
    [top_p] are the options' [temperature] and [topP], absent when those
    are; [stop_sequences], [system] and [stream] are never set. *)
Theorem generateText_request_fields
    (axios : Transport) (client : AnthropicAPIClient.t)
    (model prompt : string) (options : option AnthropicAPIClient.Options.t)
    (log : list HttpCall) :
  exists request,
    snd (AnthropicAPIClient.generateText axios client model prompt options log)
    = log ++ [HttpPost "/messages" request]
    /\ AnthropicChatRequest.model request = model
    /\ AnthropicChatRequest.max_tokens request
       = match options with
         | Some o =>
             match AnthropicAPIClient.Options.maxTokens o with
             | Some n => n
             | None => 1024%float
             end
         | None => 1024%float
         end
    /\ AnthropicChatRequest.messages request
       = AnthropicAPIClient.generateText_messages prompt options
    /\ AnthropicChatRequest.temperature request
       = match options with
         | Some o => AnthropicAPIClient.Options.temperature o
         | None => None
         end
    /\ AnthropicChatRequest.top_p request
       = match options with
         | Some o => AnthropicAPIClient.Options.topP o
         | None => None
         end
    /\ AnthropicChatRequest.stop_sequences request = None
    /\ AnthropicChatRequest.system request = None
    /\ AnthropicChatRequest.stream request = None.
Proof.
  exists (AnthropicAPIClient.generateText_request model prompt options).
  split; [apply generateText_posts_request|].
  destruct options as [o|]; simpl; repeat split; reflexivity.
Qed.

(** C5.  When the awaited call resolves: a response without data, without
    a content array or with an empty one makes [generateText] throw the
    empty-response error; any other response makes it return the
    segments' [text] fields joined, in order, with nothing between. *)
Theorem generateText_result
    (axios : Transport) (client : AnthropicAPIClient.t)
    (model prompt : string) (options : option AnthropicAPIClient.Options.t)
    (log : list HttpCall) (data : option AnthropicChatResponse.t) :
  on_post axios log "/messages"
    (AnthropicAPIClient.generateText_request model prompt options)
  = Resolved data ->
  let result :=
    fst (AnthropicAPIClient.generateText axios client model prompt options log) in
  ((data = None
    \/ (exists d, data = Some d /\ AnthropicChatResponse.content d = None)
    \/ (exists d, data = Some d /\ AnthropicChatResponse.content d = Some []))
   /\ result = Throw (Error "No response content returned from Anthropic"))
  \/ (exists d first others,
        data = Some d
        /\ AnthropicChatResponse.content d = Some (first :: others)
        /\ result
           = Return (String.concat ""
                       (map ContentPart.text (first :: others)))).
Proof.
  intros Hreply result. subst result.
  unfold AnthropicAPIClient.generateText, client_post. simpl. rewrite Hreply.
  destruct data as [d|]; simpl.
  - destruct (AnthropicChatResponse.content d) as [[|first others]|] eqn:Hcontent;
      simpl.
    + left. split; [|reflexivity]. right. right. now exists d.
    + right. now exists d, first, others.
    + left. split; [|reflexivity]. right. left. now exists d.
  - left. split; [now left | reflexivity].
Qed.

Lemma generateText_result_witness :
  fst (AnthropicAPIClient.generateText
         (serving [] (Some [ContentPart.mk "text" "ab"; ContentPart.mk "text" "cd"]))
         test_client "model-x" "hello" None [])
  = Return "abcd"
  /\ fst (AnthropicAPIClient.generateText (serving [] (Some []))
            test_client "model-x" "hello" None [])
     = Throw (Error "No response content returned from Anthropic").
Proof.
  split.
  - destruct (generateText_result
                (serving [] (Some [ContentPart.mk "text" "ab";
                                   ContentPart.mk "text" "cd"]))
                test_client "model-x" "hello" None [] _ eq_refl)
      as [[Hcase _]|(d & first & others & Hd & Hcontent & Hresult)].
    + exfalso.
      destruct Hcase as [H|[(d & Hd & Hc)|(d & Hd & Hc)]];
        [discriminate H | injection Hd as <- | injection Hd as <-];
        discriminate Hc.
    + injection Hd as <-. injection Hcontent as <- <-. exact Hresult.
  - destruct (generateText_result (serving [] (Some []))
                test_client "model-x" "hello" None [] _ eq_refl)
      as [[_ Hresult]|(d & first & others & Hd & Hcontent & _)].
    + exact Hresult.
    + exfalso. injection Hd as <-. discriminate Hcontent.
Defined.

(** C6, as it is stated, fails: a system prompt that is the empty string
    is given, and no system message is built from it. *)
Lemma empty_system_prompt_builds_no_system_message :
  ~ (forall (prompt systemPrompt : string) (options : AnthropicAPIClient.Options.t),
        AnthropicAPIClient.Options.systemPrompt options = Some systemPrompt ->
        AnthropicAPIClient.generateText_messages prompt (Some options)
        = [AnthropicMessage.mk system systemPrompt;
           AnthropicMessage.mk user prompt]).
Proof.
  intros H.
  specialize (H "hello" ""
                (AnthropicAPIClient.Options.mk None None None (Some "") [])
                eq_refl).
  discriminate H.
Qed.

(** C6, amended.  The request [generateText] posts has these messages:
    when the options give a system prompt that is not the empty string,
    one system message holding it, then one user message holding the
    prompt; when the options or their system prompt are absent, the user
    message alone. *)
Theorem generateText_message_list
    (axios : Transport) (client : AnthropicAPIClient.t)
    (model prompt : string) (options : option AnthropicAPIClient.Options.t)
    (log : list HttpCall) :
  exists request,
    snd (AnthropicAPIClient.generateText axios client model prompt options log)
    = log ++ [HttpPost "/messages" request]
    /\ (forall systemPrompt,
          opt_chain options AnthropicAPIClient.Options.systemPrompt
          = Some systemPrompt ->
          systemPrompt <> "" ->
          AnthropicChatRequest.messages request
          = [AnthropicMessage.mk system systemPrompt;
             AnthropicMessage.mk user prompt])
    /\ (opt_chain options AnthropicAPIClient.Options.systemPrompt = None ->
        AnthropicChatRequest.messages request
        = [AnthropicMessage.mk user prompt]).
Proof.
  exists (AnthropicAPIClient.generateText_request model prompt options).
  split; [apply generateText_posts_request|].
  simpl. unfold AnthropicAPIClient.generateText_messages.
  split.
  - intros s Hs Hne. rewrite Hs.
    destruct s as [|c s]; [congruence | reflexivity].
  - intros Hnone. rewrite Hnone. reflexivity.
Qed.

Lemma generateText_message_list_witness :
  exists request,
    snd (AnthropicAPIClient.generateText offline test_client "model-x" "hello"
           (Some (AnthropicAPIClient.Options.mk None None None (Some "S") []))
           [])
    = [HttpPost "/messages" request]
    /\ AnthropicChatRequest.messages request
       = [AnthropicMessage.mk system "S"; AnthropicMessage.mk user "hello"].
Proof.
  destruct (generateText_message_list offline test_client "model-x" "hello"
              (Some (AnthropicAPIClient.Options.mk None None None (Some "S") []))
              [])
    as (request & Hlog & Hsystem & _).
  exists request. split; [exact Hlog|].
  apply Hsystem; [reflexivity | discriminate].
Defined.

(** C10.  With [options.systemPrompt] equal to the empty string the posted
    request carries the single user message, as it does when no options
    are given at all. *)
Theorem empty_system_prompt_is_ignored
    (axios : Transport) (client : AnthropicAPIClient.t)
    (model prompt : string) (options : AnthropicAPIClient.Options.t)
    (log : list HttpCall) :
  AnthropicAPIClient.Options.systemPrompt options = Some "" ->
  exists request,
    snd (AnthropicAPIClient.generateText axios client model prompt
           (Some options) log)
    = log ++ [HttpPost "/messages" request]
    /\ AnthropicChatRequest.messages request = [AnthropicMessage.mk user prompt]
    /\ AnthropicChatRequest.messages request
       = AnthropicAPIClient.generateText_messages prompt None.
Proof.
  intros Hempty.
  exists (AnthropicAPIClient.generateText_request model prompt (Some options)).
  split; [apply generateText_posts_request|].
  simpl. unfold AnthropicAPIClient.generateText_messages. simpl.
  rewrite Hempty. split; reflexivity.
Qed.

Lemma empty_system_prompt_witness :
  exists request,
    snd (AnthropicAPIClient.generateText offline test_client "model-x" "hello"
           (Some (AnthropicAPIClient.Options.mk None None None (Some "") []))
           [])
    = [HttpPost "/messages" request]
    /\ AnthropicChatRequest.messages request
       = [AnthropicMessage.mk user "hello"].
Proof.
  destruct (empty_system_prompt_is_ignored offline test_client "model-x" "hello"
              (AnthropicAPIClient.Options.mk None None None (Some "") [])
              [] eq_refl)
    as (request & Hlog & Hmessages & _).
  exists request. split; assumption.
Defined.

(** ** Model discovery *)

Lemma discoverModels_unfold axios this log client :
  AnthropicProvider.apiClient this = Some client ->
  Discovering.discoverModels axios this log
  = (fst (Discovering.discoverModels_resume
            (fst (AnthropicAPIClient.getAvailableModels axios client log)) this),
     snd (Discovering.discoverModels_resume
            (fst (AnthropicAPIClient.getAvailableModels axios client log)) this),
     log ++ [HttpGet "/models"]).
Proof.
  intros Hclient. unfold Discovering.discoverModels. rewrite Hclient.
  unfold AnthropicAPIClient.getAvailableModels, client_get. simpl.
  destruct (Discovering.discoverModels_resume _ this). reflexivity.
Qed.

Lemma discoverModels_resume_returns listing this :
  fst (Discovering.discoverModels_resume listing this) = Return tt.
Proof.
  unfold Discovering.discoverModels_resume.
  destruct listing as [[models|]|e]; simpl; try reflexivity.
  destruct (Nat.eqb (length models) 0); reflexivity.
Qed.

Lemma discoverModels_resume_unpopulated listing this :
  populated listing = false ->
  snd (Discovering.discoverModels_resume listing this)
  = Discovering.initializeFallbackModels this.
Proof.
  unfold Discovering.discoverModels_resume.
  destruct listing as [[[|model models]|]|e]; simpl; try reflexivity.
  discriminate.
Qed.

Lemma discoverModels_resume_not_empty listing this :
  AnthropicProvider.discoveredModels
    (snd (Discovering.discoverModels_resume listing this)) <> [].
Proof.
  unfold Discovering.discoverModels_resume.
  unfold Discovering.initializeFallbackModels, AnthropicProvider.with_models.
  destruct listing as [[[|model models]|]|e];
    cbn [snd length Nat.eqb AnthropicProvider.discoveredModels];
    apply set_each_not_empty; discriminate.
Qed.

(** The identifiers in the registry after the rest of a discovery: those
    it held, and those listed or, without a usable listing, the fallback
    ones. *)
Lemma resume_supported listing this id :
  AnthropicProvider.supportsTextToTextModel
    (snd (Discovering.discoverModels_resume listing this)) id = true
  <-> AnthropicProvider.supportsTextToTextModel this id = true
      \/ In id match listing with
               | Return (Some (model :: models)) =>
                   map AnthropicModel.id (model :: models)
               | _ => Discovering.fallbackModels
               end.
Proof.
  unfold AnthropicProvider.supportsTextToTextModel,
    Discovering.discoverModels_resume, Discovering.initializeFallbackModels,
    AnthropicProvider.with_models.
  destruct listing as [[[|model models]|]|thrown];
    cbn [length Nat.eqb snd AnthropicProvider.discoveredModels];
    rewrite has_set_each; try rewrite map_id; reflexivity.
Qed.

(** C2, as it is stated, fails: a registry that held the fallback models
    before a discovery that lists one model still holds them afterwards,
    next to the model listed. *)
Lemma discovery_does_not_replace_registry :
  ~ (forall (axios : Transport) (this : AnthropicProvider.t)
            (log : list HttpCall) (client : AnthropicAPIClient.t)
            (models : list AnthropicModel.t),
        AnthropicProvider.apiClient this = Some client ->
        fst (AnthropicAPIClient.getAvailableModels axios client log)
        = Return (Some models) ->
        models <> [] ->
        forall id,
          AnthropicProvider.supportsTextToTextModel
            (snd (fst (Discovering.discoverModels axios this log))) id = true
          <-> In id (map AnthropicModel.id models)).
Proof.
  intros H.
  specialize (H recovering (this after_failed_discovery)
                (net after_failed_discovery)
                (AnthropicAPIClient.constructor
                   (AnthropicConfig.mk "sk-test" (Some None) (Some None)))
                [AnthropicModel.mk "claude-sonnet-4" None None "model"]
                eq_refl eq_refl).
  assert (Hne : [AnthropicModel.mk "claude-sonnet-4" None None "model"] <> [])
    by discriminate.
  destruct (H Hne "claude-3-5-sonnet-latest") as [Hin _].
  specialize (Hin eq_refl). simpl in Hin.
  destruct Hin as [Heq|[]]. discriminate Heq.
Qed.

(** C2, amended.  [discoverModels] on a provider with an API client adds
    to the registry and removes nothing.  When the listing is a non-empty
    array, the identifiers in the registry afterwards are those it held
    before together with the identifiers listed; when the listing is an
    empty array, they are those it held before together with the
    fallback identifiers.  In particular, when the registry was empty
    before, the identifiers afterwards are exactly the listed ones, or
    exactly the fallback ones. *)
Theorem discoverModels_adds_to_registry
    (axios : Transport) (this : AnthropicProvider.t) (log : list HttpCall)
    (client : AnthropicAPIClient.t) (listing : Listing) :
  AnthropicProvider.apiClient this = Some client ->
  fst (AnthropicAPIClient.getAvailableModels axios client log) = listing ->
  let this' := snd (fst (Discovering.discoverModels axios this log)) in
  (forall models,
      listing = Return (Some models) -> models <> [] ->
      forall id,
        AnthropicProvider.supportsTextToTextModel this' id = true
        <-> AnthropicProvider.supportsTextToTextModel this id = true
            \/ In id (map AnthropicModel.id models))
  /\ (listing = Return (Some []) ->
      forall id,
        AnthropicProvider.supportsTextToTextModel this' id = true
        <-> AnthropicProvider.supportsTextToTextModel this id = true
            \/ In id Discovering.fallbackModels)
  /\ (AnthropicProvider.discoveredModels this = [] ->
      (forall models,
          listing = Return (Some models) -> models <> [] ->
          forall id,
            AnthropicProvider.supportsTextToTextModel this' id = true
            <-> In id (map AnthropicModel.id models))
      /\ (listing = Return (Some []) ->
          forall id,
            AnthropicProvider.supportsTextToTextModel this' id = true
            <-> In id Discovering.fallbackModels)).
Proof.
  intros Hclient Hlisting this'. subst this'.
  rewrite (discoverModels_unfold axios this log client Hclient), Hlisting.
  cbn [fst snd].
  assert (Hlisted : forall models,
             listing = Return (Some models) -> models <> [] ->
             forall id,
               AnthropicProvider.supportsTextToTextModel
                 (snd (Discovering.discoverModels_resume listing this)) id = true
               <-> AnthropicProvider.supportsTextToTextModel this id = true
                   \/ In id (map AnthropicModel.id models)).
  { intros models -> Hne id. rewrite resume_supported.
    destruct models as [|model models]; [congruence | reflexivity]. }
  assert (Hnone : listing = Return (Some []) ->
             forall id,
               AnthropicProvider.supportsTextToTextModel
                 (snd (Discovering.discoverModels_resume listing this)) id = true
               <-> AnthropicProvider.supportsTextToTextModel this id = true
                   \/ In id Discovering.fallbackModels).
  { intros -> id. rewrite resume_supported. reflexivity. }
  split; [exact Hlisted|]. split; [exact Hnone|].
  intros Hprior.
  assert (Hunsupported : forall id,
             AnthropicProvider.supportsTextToTextModel this id = true <-> False).
  { intros id. unfold AnthropicProvider.supportsTextToTextModel.
    rewrite Hprior. split; [discriminate | tauto]. }
  split.
  - intros models Hl Hne id.
    rewrite (Hlisted models Hl Hne id), Hunsupported. tauto.
  - intros Hl id. rewrite (Hnone Hl id), Hunsupported. tauto.
Qed.

Lemma discoverModels_adds_witness :
  (JSMap.keys (AnthropicProvider.discoveredModels
                 (snd (fst (Discovering.discoverModels recovering
                              (this after_failed_discovery)
                              (net after_failed_discovery)))))
   = Discovering.fallbackModels ++ ["claude-sonnet-4"]
   /\ forall id,
        AnthropicProvider.supportsTextToTextModel
          (snd (fst (Discovering.discoverModels recovering
                       (this after_failed_discovery)
                       (net after_failed_discovery)))) id = true
        <-> AnthropicProvider.supportsTextToTextModel
              (this after_failed_discovery) id = true
            \/ In id ["claude-sonnet-4"])
  /\ forall id,
       AnthropicProvider.supportsTextToTextModel
         (snd (fst (Discovering.discoverModels
                      (serving ["claude-sonnet-4"] None)
                      (this (construct BackgroundDiscovery no_parse
                               (serving ["claude-sonnet-4"] None) env_with_key))
                      []))) id = true
       <-> In id ["claude-sonnet-4"].
Proof.
  split; [split; [reflexivity|]|].
  - apply (proj1 (discoverModels_adds_to_registry recovering
                    (this after_failed_discovery) (net after_failed_discovery)
                    (AnthropicAPIClient.constructor
                       (AnthropicConfig.mk "sk-test" (Some None) (Some None)))
                    _ eq_refl eq_refl)
                 [AnthropicModel.mk "claude-sonnet-4" None None "model"]
                 eq_refl).
    discriminate.
  - apply (proj1 (proj2 (proj2
             (discoverModels_adds_to_registry
                (serving ["claude-sonnet-4"] None)
                (this (construct BackgroundDiscovery no_parse
                         (serving ["claude-sonnet-4"] None) env_with_key))
                []
                (AnthropicAPIClient.constructor
                   (AnthropicConfig.mk "sk-test" (Some None) (Some None)))
                _ eq_refl eq_refl)) eq_refl)
             [AnthropicModel.mk "claude-sonnet-4" None None "model"]
             eq_refl).
    discriminate.
Defined.

(** C7.  [discoverModels] returns normally whatever the transport does.
    On a provider with an API client it leaves the registry non-empty,
    and when the listing call failed, or gave no array or an empty one,
    every fallback identifier is in the registry with its fallback
    descriptor. *)
Theorem discoverModels_never_raises
    (axios : Transport) (this : AnthropicProvider.t) (log : list HttpCall) :
  let out := Discovering.discoverModels axios this log in
  fst (fst out) = Return tt
  /\ forall client,
       AnthropicProvider.apiClient this = Some client ->
       AnthropicProvider.discoveredModels (snd (fst out)) <> []
       /\ (populated (fst (AnthropicAPIClient.getAvailableModels axios client log))
           = false ->
           forall id,
             In id Discovering.fallbackModels ->
             JSMap.get id (AnthropicProvider.discoveredModels (snd (fst out)))
             = Some (Discovering.fallback_entry id)).
Proof.
  intros out. subst out. split.
  - destruct (AnthropicProvider.apiClient this) as [client|] eqn:Hclient.
    + rewrite (discoverModels_unfold axios this log client Hclient). simpl.
      apply discoverModels_resume_returns.
    + unfold Discovering.discoverModels. now rewrite Hclient.
  - intros client Hclient.
    rewrite (discoverModels_unfold axios this log client Hclient). simpl.
    split; [apply discoverModels_resume_not_empty|].
    intros Hbad id Hid.
    rewrite (discoverModels_resume_unpopulated _ this Hbad).
    unfold Discovering.initializeFallbackModels.
    cbn [AnthropicProvider.discoveredModels AnthropicProvider.with_models].
    rewrite get_set_each_by_id.
    destruct (existsb (String.eqb id) Discovering.fallbackModels) eqn:Hex;
      [reflexivity|].
    exfalso. apply Bool.not_true_iff_false in Hex. apply Hex.
    apply existsb_exists. exists id. split; [exact Hid | apply String.eqb_refl].
Qed.

Lemma discoverModels_never_raises_witness :
  let out :=
    Discovering.discoverModels offline
      (this (construct BackgroundDiscovery no_parse offline env_with_key)) [] in
  fst (fst out) = Return tt
  /\ AnthropicProvider.discoveredModels (snd (fst out)) <> []
  /\ JSMap.get "claude-3-opus-latest"
       (AnthropicProvider.discoveredModels (snd (fst out)))
     = Some (Discovering.fallback_entry "claude-3-opus-latest").
Proof.
  destruct (discoverModels_never_raises offline
              (this (construct BackgroundDiscovery no_parse offline env_with_key))
              []) as [Hreturn Hregistry].
  destruct (Hregistry _ eq_refl) as [Hnonempty Hfallback].
  split; [exact Hreturn|]. split; [exact Hnonempty|].
  apply Hfallback; [reflexivity|].
  simpl. right. right. now left.
Defined.

(** ** The registry right after construction *)




(** ** The uniformity of the registry over a provider's lifetime *)

Lemma uniform_construct v parseInt axios env :
  uniform (AnthropicProvider.discoveredModels
             (this (construct v parseInt axios env))).
Proof.
  destruct v; cbn [construct].
  - unfold Seeded.constructor.
    destruct (env "ANTHROPIC_API_KEY") as [apiKey|]; [|constructor].
    destruct (truthy apiKey); [|constructor].
    cbn [this]. apply uniform_known. constructor.
  - unfold Discovering.constructor.
    destruct (env "ANTHROPIC_API_KEY") as [apiKey|]; [|constructor].
    destruct (truthy apiKey); [|constructor].
    destruct (AnthropicAPIClient.getAvailableModels _ _ _). constructor.
Qed.

Lemma uniform_discoverModels axios this log :
  uniform (AnthropicProvider.discoveredModels this) ->
  uniform (AnthropicProvider.discoveredModels
             (snd (fst (Discovering.discoverModels axios this log)))).
Proof.
  intros H.
  destruct (AnthropicProvider.apiClient this) as [client|] eqn:Hclient.
  - rewrite (discoverModels_unfold axios this log client Hclient).
    cbn [fst snd]. now apply uniform_resume.
  - unfold Discovering.discoverModels. rewrite Hclient. exact H.
Qed.

Lemma uniform_configure v axios config this log :
  uniform (AnthropicProvider.discoveredModels this) ->
  uniform (AnthropicProvider.discoveredModels
             (snd (fst (configure v axios config this log)))).
Proof.
  intros H. destruct v; cbn [configure].
  - unfold Seeded.configure.
    destruct (ProviderConfig.apiKey config) as [apiKey|]; [|exact H].
    destruct (truthy apiKey); cbn [negb fst snd]; [|exact H].
    cbn [AnthropicProvider.discoveredModels].
    destruct (Nat.eqb _ 0); [|exact H].
    apply uniform_known. exact H.
  - unfold Discovering.configure.
    destruct (ProviderConfig.apiKey config) as [apiKey|]; [|exact H].
    destruct (truthy apiKey); cbn [negb fst snd]; [|exact H].
    apply uniform_discoverModels. exact H.
Qed.

Lemma uniform_perform v axios c w :
  uniform (AnthropicProvider.discoveredModels (this w)) ->
  uniform (AnthropicProvider.discoveredModels (this (perform v axios c w))).
Proof.
  intros H. destruct c; cbn [perform].
  - pose proof (uniform_configure v axios config (this w) (net w) H) as H'.
    destruct (configure v axios config (this w) (net w)) as [[result this'] log'].
    exact H'.
  - destruct (AnthropicProvider.isAvailable axios (this w) (net w)). exact H.
  - destruct (AnthropicProvider.createTextToTextModel (this w) modelId (net w)).
    exact H.
  - destruct (AnthropicProvider.getModel (this w) modelId (net w)). exact H.
  - destruct (AnthropicProvider.apiClient (this w)) as [client|]; [|exact H].
    destruct (AnthropicAPIClient.generateText _ _ _ _ _ _). exact H.
  - destruct (background w) as [listing|]; [|exact H].
    pose proof (uniform_resume listing (this w) H) as H'.
    destruct (Discovering.discoverModels_resume listing (this w)). exact H'.
Qed.

Lemma uniform_run v axios calls w :
  uniform (AnthropicProvider.discoveredModels (this w)) ->
  uniform (AnthropicProvider.discoveredModels (this (run v axios calls w))).
Proof.
  unfold run. revert w.
  induction calls as [|c calls IH]; intros w H; simpl; [exact H|].
  apply IH, uniform_perform, H.
Qed.

Lemma uniform_supported this :
  uniform (AnthropicProvider.discoveredModels this) ->
  AnthropicProvider.getSupportedTextToTextModels this
  = JSMap.keys (AnthropicProvider.discoveredModels this).
Proof.
  intros H. unfold AnthropicProvider.getSupportedTextToTextModels.
  apply filter_all. intros id Hid.
  destruct (get_entry id _ Hid) as (m & -> & Hentry).
  destruct (proj1 (Forall_forall _ _) H _ Hentry) as [_ Hcaps].
  cbn [snd] in Hcaps. rewrite Hcaps. reflexivity.
Qed.

(** C9.  Each of the three routines that fill the registry leaves the
    entries it found or puts in entries stored under their own [id] with
    the capability list [[TEXT_TO_TEXT]].  Hence, in every state a
    provider of either version reaches, the registry is uniform,
    [getSupportedTextToTextModels] returns all keys of the registry, and
    [getModelsForCapability(TEXT_TO_TEXT)] returns all its descriptors. *)
Theorem registry_uniformity :
  (forall this e,
      In e (AnthropicProvider.discoveredModels
              (Seeded.initializeKnownClaudeModels this)) ->
      In e (AnthropicProvider.discoveredModels this) \/ uniform_entry e)
  /\ (forall this e,
         In e (AnthropicProvider.discoveredModels
                 (Discovering.initializeFallbackModels this)) ->
         In e (AnthropicProvider.discoveredModels this) \/ uniform_entry e)
  /\ (forall listing this e,
         In e (AnthropicProvider.discoveredModels
                 (snd (Discovering.discoverModels_resume listing this))) ->
         In e (AnthropicProvider.discoveredModels this) \/ uniform_entry e)
  /\ (forall v parseInt axios env w,
         reachable v parseInt axios env w ->
         uniform (AnthropicProvider.discoveredModels (this w))
         /\ AnthropicProvider.getSupportedTextToTextModels (this w)
            = JSMap.keys (AnthropicProvider.discoveredModels (this w))
         /\ AnthropicProvider.getModelsForCapability TEXT_TO_TEXT (this w)
            = JSMap.values (AnthropicProvider.discoveredModels (this w))).
Proof.
  assert (Hknown : forall this e,
             In e (AnthropicProvider.discoveredModels
                     (Seeded.initializeKnownClaudeModels this)) ->
             In e (AnthropicProvider.discoveredModels this) \/ uniform_entry e).
  { intros this e Hin.
    destruct (set_each_entries _ _ _ _ _ Hin) as [H|(id & _ & ->)];
      [now left | right; split; reflexivity]. }
  assert (Hfallback : forall this e,
             In e (AnthropicProvider.discoveredModels
                     (Discovering.initializeFallbackModels this)) ->
             In e (AnthropicProvider.discoveredModels this) \/ uniform_entry e).
  { intros this e Hin.
    destruct (set_each_entries _ _ _ _ _ Hin) as [H|(id & _ & ->)];
      [now left | right; split; reflexivity]. }
  split; [exact Hknown|]. split; [exact Hfallback|]. split.
  - intros listing this e. unfold Discovering.discoverModels_resume.
    destruct listing as [[[|model models]|]|thrown]; cbn [length Nat.eqb snd];
      try apply Hfallback.
    intros Hin.
    destruct (set_each_entries _ _ _ _ _ Hin) as [H|(x & _ & ->)];
      [now left | right; split; reflexivity].
  - intros v parseInt axios env w [calls ->].
    assert (H : uniform (AnthropicProvider.discoveredModels
                           (this (run v axios calls
                                    (construct v parseInt axios env)))))
      by apply uniform_run, uniform_construct.
    split; [exact H|]. split; [now apply uniform_supported | reflexivity].
Qed.

Lemma registry_uniformity_witness :
  let w := run BackgroundDiscovery recovering
               [Settle; Configure key_config; GetModel "claude-sonnet-4"]
               (construct BackgroundDiscovery no_parse recovering env_with_key) in
  AnthropicProvider.getSupportedTextToTextModels (this w)
  = JSMap.keys (AnthropicProvider.discoveredModels (this w))
  /\ AnthropicProvider.getModelsForCapability TEXT_TO_TEXT (this w)
     = JSMap.values (AnthropicProvider.discoveredModels (this w)).
Proof.
  destruct registry_uniformity as (_ & _ & _ & Hreach).
  destruct (Hreach BackgroundDiscovery no_parse recovering env_with_key
              (run BackgroundDiscovery recovering
                 [Settle; Configure key_config; GetModel "claude-sonnet-4"]
                 (construct BackgroundDiscovery no_parse recovering env_with_key)))
    as (_ & Hkeys & Hvalues).
  - exists [Settle; Configure key_config; GetModel "claude-sonnet-4"].
    reflexivity.
  - split; [exact Hkeys | exact Hvalues].
Defined.

(* ------------------------------------------------------------------ *)
(** * Further properties of the client *)

Lemma prefix_app (p s : string) : String.prefix p (p ++ s)%string = true.
Proof.
  induction p as [|c p IH]; simpl; [destruct s; reflexivity|].
  destruct (ascii_dec c c) as [_|Hne]; [exact IH | congruence].
Qed.

Lemma concat_empty_cons (x : string) (xs : list string) :
  String.concat "" (x :: xs) = (x ++ String.concat "" xs)%string.
Proof.
  destruct xs as [|y ys]; simpl; [|reflexivity].
  induction x as [|c x IH]; simpl; [reflexivity | now rewrite <- IH].
Qed.

Lemma string_app_assoc (a b c : string) :
  ((a ++ b) ++ c = a ++ (b ++ c))%string.
Proof. induction a as [|x a IH]; simpl; [reflexivity | now rewrite IH]. Qed.

Lemma string_app_length (a b : string) :
  String.length (a ++ b)%string = String.length a + String.length b.
Proof. induction a as [|x a IH]; simpl; [reflexivity | now rewrite IH]. Qed.

(** X1.  [getAvailableModels] makes one GET of [/models].  When the call
    resolves with a response body it returns the [data] array of that
    body.  When the call is rejected it throws an [Error] whose message
    is ["Failed to fetch Anthropic models: "] followed by the message of
    the rejection if that is an [Error], and by ["Unknown error"] if it
    is not.  Whenever it throws, the response had no body and what is
    thrown is an [Error] whose message starts with that prefix. *)
Theorem getAvailableModels_outcomes
    (axios : Transport) (client : AnthropicAPIClient.t) (log : list HttpCall) :
  snd (AnthropicAPIClient.getAvailableModels axios client log)
  = log ++ [HttpGet "/models"]
  /\ (forall body,
        on_get axios log "/models" = Resolved (Some body) ->
        fst (AnthropicAPIClient.getAvailableModels axios client log)
        = Return (AnthropicModelsResponse.data body))
  /\ (forall message,
        on_get axios log "/models" = Rejected (Error message) ->
        fst (AnthropicAPIClient.getAvailableModels axios client log)
        = Throw (Error ("Failed to fetch Anthropic models: " ++ message)))
  /\ (forall shown,
        on_get axios log "/models" = Rejected (NonError shown) ->
        fst (AnthropicAPIClient.getAvailableModels axios client log)
        = Throw (Error "Failed to fetch Anthropic models: Unknown error"))
  /\ (forall thrown,
        fst (AnthropicAPIClient.getAvailableModels axios client log)
        = Throw thrown ->
        (forall body, on_get axios log "/models" <> Resolved (Some body))
        /\ exists message,
             thrown = Error message
             /\ String.prefix "Failed to fetch Anthropic models: " message
                = true).
Proof.
  unfold AnthropicAPIClient.getAvailableModels, client_get. cbn [fst snd].
  split; [reflexivity|]. split; [|split; [|split]].
  - intros body ->. reflexivity.
  - intros message ->. reflexivity.
  - intros shown ->. reflexivity.
  - intros thrown.
    destruct (on_get axios log "/models") as [[body|]|reason];
      cbn [AnthropicAPIClient.getAvailableModels_resume]; intros H.
    + discriminate H.
    + injection H as H. subst thrown. split; [discriminate|].
      eexists. split; reflexivity.
    + injection H as H. subst thrown. split; [discriminate|].
      eexists. split; [reflexivity|].
      exact (prefix_app "Failed to fetch Anthropic models: " (message_of reason)).
Qed.

Lemma getAvailableModels_outcomes_witness :
  fst (AnthropicAPIClient.getAvailableModels offline test_client [])
  = Throw (Error "Failed to fetch Anthropic models: connect ECONNREFUSED")
  /\ fst (AnthropicAPIClient.getAvailableModels
            (serving ["claude-sonnet-4"] None) test_client [])
     = Return (Some [AnthropicModel.mk "claude-sonnet-4" None None "model"])
  /\ fst (AnthropicAPIClient.getAvailableModels
            {| on_get := fun _ _ => Rejected (NonError "timeout");
               on_post := fun _ _ _ => Rejected (NonError "timeout") |}
            test_client [])
     = Throw (Error "Failed to fetch Anthropic models: Unknown error").
Proof.
  split; [|split].
  - apply (proj1 (proj2 (proj2
             (getAvailableModels_outcomes offline test_client [])))
             "connect ECONNREFUSED").
    reflexivity.
  - apply (proj1 (proj2
             (getAvailableModels_outcomes (serving ["claude-sonnet-4"] None)
                test_client []))
             (AnthropicModelsResponse.mk
                (Some [AnthropicModel.mk "claude-sonnet-4" None None "model"])
                None None false)).
    reflexivity.
  - apply (proj1 (proj2 (proj2 (proj2
             (getAvailableModels_outcomes
                {| on_get := fun _ _ => Rejected (NonError "timeout");
                   on_post := fun _ _ _ => Rejected (NonError "timeout") |}
                test_client []))))
             "timeout").
    reflexivity.
Defined.

(** X2.  [generateText] rethrows a rejection of its POST as it is, without
    wrapping it, and it returns a string exactly when the POST resolved
    with a body whose content array has at least one segment. *)
Theorem generateText_outcomes
    (axios : Transport) (client : AnthropicAPIClient.t)
    (model prompt : string) (options : option AnthropicAPIClient.Options.t)
    (log : list HttpCall) :
  let reply :=
    on_post axios log "/messages"
      (AnthropicAPIClient.generateText_request model prompt options) in
  let result :=
    fst (AnthropicAPIClient.generateText axios client model prompt options log) in
  (forall reason, reply = Rejected reason -> result = Throw reason)
  /\ ((exists text, result = Return text)
      <-> exists body first others,
            reply = Resolved (Some body)
            /\ AnthropicChatResponse.content body = Some (first :: others)).
Proof.
  intros reply result. subst reply result.
  unfold AnthropicAPIClient.generateText, client_post. cbn [fst snd].
  destruct (on_post axios log "/messages" _) as [[body|]|reason];
    cbn [AnthropicAPIClient.generateText_resume].
  - split; [intros reason H; discriminate H|].
    destruct (AnthropicChatResponse.content body) as [[|first others]|] eqn:Hc;
      cbn [length Nat.eqb].
    + split; [intros [text H]; discriminate H|].
      intros (b & f & o & Hb & Hc'). injection Hb as <-. congruence.
    + split; [|intros _; eexists; reflexivity].
      intros _. now exists body, first, others.
    + split; [intros [text H]; discriminate H|].
      intros (b & f & o & Hb & Hc'). injection Hb as <-. congruence.
  - split; [intros reason H; discriminate H|].
    split; [intros [text H]; discriminate H|].
    intros (b & f & o & Hb & _). discriminate Hb.
  - split; [intros r H; injection H as <-; reflexivity|].
    split; [intros [text H]; discriminate H|].
    intros (b & f & o & Hb & _). discriminate Hb.
Qed.

Lemma generateText_outcomes_witness :
  fst (AnthropicAPIClient.generateText offline test_client "model-x" "hello"
         None [])
  = Throw (Error "connect ECONNREFUSED").
Proof.
  apply (proj1 (generateText_outcomes offline test_client "model-x" "hello"
                  None [])
               (Error "connect ECONNREFUSED")).
  reflexivity.
Defined.

(** X3.  Joining the segments adds and drops nothing: the text of two
    lists of segments one after the other is the text of the first
    followed by the text of the second, and the length of the result is
    the sum of the lengths of the segments' texts. *)
Theorem join_texts_app (a b : list ContentPart.t) :
  AnthropicAPIClient.join_texts (a ++ b)
  = (AnthropicAPIClient.join_texts a ++ AnthropicAPIClient.join_texts b)%string
  /\ String.length (AnthropicAPIClient.join_texts a) = total_length a.
Proof.
  unfold AnthropicAPIClient.join_texts. split.
  - induction a as [|x a IH]; [reflexivity|].
    cbn [app map]. rewrite !concat_empty_cons, IH. symmetry.
    apply string_app_assoc.
  - induction a as [|x a IH]; [reflexivity|].
    cbn [map total_length fold_right]. rewrite concat_empty_cons.
    rewrite string_app_length. f_equal. exact IH.
Qed.

(* ------------------------------------------------------------------ *)
(** * Further properties of the provider *)

(** X4.  [isAvailable] never throws.  Without an API client it answers
    [false] and requests nothing; with one it makes a single GET of
    [/models] and answers [true] exactly when that call resolved,
    whatever the response holds. *)
Theorem isAvailable_probe
    (axios : Transport) (this : AnthropicProvider.t) (log : list HttpCall) :
  (AnthropicProvider.apiClient this = None ->
   AnthropicProvider.isAvailable axios this log = (false, log))
  /\ (forall client,
        AnthropicProvider.apiClient this = Some client ->
        snd (AnthropicProvider.isAvailable axios this log)
        = log ++ [HttpGet "/models"]
        /\ (fst (AnthropicProvider.isAvailable axios this log) = true
            <-> exists data, on_get axios log "/models" = Resolved data)).
Proof.
  unfold AnthropicProvider.isAvailable. split.
  - intros ->. reflexivity.
  - intros client ->.
    unfold AnthropicAPIClient.testConnection, client_get.
    destruct (on_get axios log "/models") as [data|reason]; cbn [fst snd].
    + split; [reflexivity|]. split; [intros _; now exists data | reflexivity].
    + split; [reflexivity|].
      split; [discriminate | intros [data H]; discriminate H].
Qed.

Lemma isAvailable_probe_witness :
  AnthropicProvider.isAvailable offline AnthropicProvider.fresh [] = (false, [])
  /\ snd (AnthropicProvider.isAvailable offline
            (this (construct SyncSeeding no_parse offline env_with_key)) [])
     = [HttpGet "/models"].
Proof.
  split.
  - apply (proj1 (isAvailable_probe offline AnthropicProvider.fresh [])).
    reflexivity.
  - apply (proj2 (isAvailable_probe offline
                    (this (construct SyncSeeding no_parse offline env_with_key))
                    []) test_client).
    reflexivity.
Defined.

(** X5.  [getHealth] and [getServiceStatus] report what the connection
    test found and request what it requests.  A provider without an API
    client is reported unhealthy with the error ['API connection failed']
    although nothing was requested; [running] is [true] in every case. *)
Theorem health_reports
    (uptime : float) (axios : Transport) (this : AnthropicProvider.t)
    (log : list HttpCall) :
  let health := fst (AnthropicProvider.getHealth uptime axios this log) in
  let status := fst (AnthropicProvider.getServiceStatus axios this log) in
  AnthropicProvider.ServiceStatus.running status = true
  /\ snd (AnthropicProvider.getHealth uptime axios this log)
     = snd (AnthropicProvider.isAvailable axios this log)
  /\ snd (AnthropicProvider.getServiceStatus axios this log)
     = snd (AnthropicProvider.isAvailable axios this log)
  /\ (AnthropicProvider.apiClient this = None ->
      AnthropicProvider.Health.status health = AnthropicProvider.unhealthy
      /\ AnthropicProvider.Health.lastError health = Some "API connection failed"
      /\ AnthropicProvider.ServiceStatus.healthy status = false
      /\ snd (AnthropicProvider.getHealth uptime axios this log) = log)
  /\ (forall client data,
        AnthropicProvider.apiClient this = Some client ->
        on_get axios log "/models" = Resolved data ->
        AnthropicProvider.Health.status health = AnthropicProvider.healthy
        /\ AnthropicProvider.Health.lastError health = None
        /\ AnthropicProvider.ServiceStatus.healthy status = true)
  /\ (forall client reason,
        AnthropicProvider.apiClient this = Some client ->
        on_get axios log "/models" = Rejected reason ->
        AnthropicProvider.Health.status health = AnthropicProvider.unhealthy
        /\ AnthropicProvider.Health.lastError health = Some "API connection failed"
        /\ AnthropicProvider.ServiceStatus.healthy status = false).
Proof.
  intros health status. subst health status.
  unfold AnthropicProvider.getHealth, AnthropicProvider.getServiceStatus.
  split; [destruct (AnthropicProvider.isAvailable axios this log); reflexivity|].
  split; [destruct (AnthropicProvider.isAvailable axios this log); reflexivity|].
  split; [destruct (AnthropicProvider.isAvailable axios this log); reflexivity|].
  unfold AnthropicProvider.isAvailable, AnthropicAPIClient.testConnection,
    client_get.
  split; [|split].
  - intros ->. repeat split; reflexivity.
  - intros client data -> ->. repeat split; reflexivity.
  - intros client reason -> ->. repeat split; reflexivity.
Qed.

Lemma health_reports_witness :
  AnthropicProvider.Health.lastError
    (fst (AnthropicProvider.getHealth 0%float offline AnthropicProvider.fresh []))
  = Some "API connection failed"
  /\ snd (AnthropicProvider.getHealth 0%float offline AnthropicProvider.fresh [])
     = [].
Proof.
  destruct (health_reports 0%float offline AnthropicProvider.fresh [])
    as (_ & _ & _ & Hnone & _).
  destruct (Hnone eq_refl) as (_ & Herror & _ & Hlog).
  split; [exact Herror | exact Hlog].
Defined.

(** X6.  [createTextToTextModel] requests nothing, and it returns a
    handle exactly when the provider has an API client and the model is
    in the registry; the handle is then bound to that client and to the
    model asked for.  On a provider with an API client [getModel] does
    what [createTextToTextModel] does. *)
Theorem createTextToTextModel_succeeds_iff
    (this : AnthropicProvider.t) (modelId : string) (log : list HttpCall) :
  snd (AnthropicProvider.createTextToTextModel this modelId log) = log
  /\ snd (AnthropicProvider.getModel this modelId log) = log
  /\ (forall handle,
        fst (AnthropicProvider.createTextToTextModel this modelId log)
        = Return handle
        <-> AnthropicProvider.apiClient this
            = Some (AnthropicTextToTextModel.apiClient handle)
            /\ AnthropicTextToTextModel.modelId handle = modelId
            /\ AnthropicProvider.supportsTextToTextModel this modelId = true)
  /\ (forall client,
        AnthropicProvider.apiClient this = Some client ->
        AnthropicProvider.getModel this modelId log
        = AnthropicProvider.createTextToTextModel this modelId log).
Proof.
  unfold AnthropicProvider.getModel, AnthropicProvider.createTextToTextModel.
  destruct (AnthropicProvider.apiClient this) as [client|];
    destruct (AnthropicProvider.supportsTextToTextModel this modelId);
    cbn [negb fst snd];
    (split; [reflexivity|]); (split; [reflexivity|]);
    (split; [|intros c H; first [discriminate H | reflexivity]]);
    intros handle; split;
    try (intros H; discriminate H);
    try (intros (H1 & H2 & H3); discriminate).
  - intros H. injection H as <-. repeat split; reflexivity.
  - intros (H1 & H2 & _). destruct handle as [c m]. cbn in H1, H2.
    injection H1 as ->. subst m. reflexivity.
Qed.

Lemma createTextToTextModel_succeeds_witness :
  fst (AnthropicProvider.createTextToTextModel
         (this (construct SyncSeeding no_parse offline env_with_key))
         "claude-2.1" [])
  = Return (AnthropicTextToTextModel.mk test_client "claude-2.1").
Proof.
  apply (proj1 (proj2 (proj2
           (createTextToTextModel_succeeds_iff
              (this (construct SyncSeeding no_parse offline env_with_key))
              "claude-2.1" [])))).
  repeat split; reflexivity.
Defined.

(** ** Construction and configuration *)

Lemma truthy_nonempty (s : string) : s <> "" -> truthy s = true.
Proof. destruct s; [congruence | reflexivity]. Qed.

(** X7.  A constructor that finds no API key in the environment, or finds
    the empty string, leaves the provider as its field initialisers made
    it: no client, no configuration, an empty registry, no request and no
    discovery under way.  This holds for both versions. *)
Theorem construction_without_key
    (v : Version) (parseInt : string -> float) (axios : Transport) (env : Env) :
  env "ANTHROPIC_API_KEY" = None \/ env "ANTHROPIC_API_KEY" = Some "" ->
  construct v parseInt axios env
  = {| this := AnthropicProvider.fresh; net := []; background := None |}.
Proof.
  intros [H|H]; destruct v; cbn [construct];
    unfold Seeded.constructor, Discovering.constructor; rewrite H; reflexivity.
Qed.

Lemma construction_without_key_witness :
  construct BackgroundDiscovery no_parse offline env_without_key
  = {| this := AnthropicProvider.fresh; net := []; background := None |}.
Proof.
  apply (construction_without_key BackgroundDiscovery no_parse offline
           env_without_key).
  left. reflexivity.
Defined.

(** X8.  The client a constructor builds.  In the first version the base
    URL is [ANTHROPIC_BASE_URL] when that is set and not empty and the
    default URL otherwise, and the timeout is the parsed
    [ANTHROPIC_TIMEOUT] or 300000.  In the second version the two
    properties are always passed to the client, so they replace the
    defaults even when undefined: the base URL is whatever
    [ANTHROPIC_BASE_URL] holds, undefined when it is not set, and the
    timeout is undefined when [ANTHROPIC_TIMEOUT] is not set. *)
Theorem constructed_client_settings
    (parseInt : string -> float) (axios : Transport) (env : Env)
    (apiKey : string) :
  env "ANTHROPIC_API_KEY" = Some apiKey ->
  apiKey <> "" ->
  AnthropicProvider.apiClient (this (construct SyncSeeding parseInt axios env))
  = Some {| AnthropicAPIClient.apiKey := apiKey;
            AnthropicAPIClient.baseUrl :=
              Some (match env "ANTHROPIC_BASE_URL" with
                    | Some url => if truthy url then url else default_baseUrl
                    | None => default_baseUrl
                    end);
            AnthropicAPIClient.timeout :=
              Some (match env "ANTHROPIC_TIMEOUT" with
                    | Some ms => if truthy ms then parseInt ms else 300000%float
                    | None => 300000%float
                    end) |}
  /\ AnthropicProvider.apiClient
       (this (construct BackgroundDiscovery parseInt axios env))
     = Some {| AnthropicAPIClient.apiKey := apiKey;
               AnthropicAPIClient.baseUrl := env "ANTHROPIC_BASE_URL";
               AnthropicAPIClient.timeout :=
                 match env "ANTHROPIC_TIMEOUT" with
                 | Some ms => if truthy ms then Some (parseInt ms) else None
                 | None => None
                 end |}.
Proof.
  intros Hkey Hne. pose proof (truthy_nonempty apiKey Hne) as Htruthy. split.
  - cbn [construct]. unfold Seeded.constructor. rewrite Hkey, Htruthy.
    cbn [this Seeded.initializeKnownClaudeModels AnthropicProvider.with_models
         AnthropicProvider.apiClient].
    unfold AnthropicAPIClient.constructor, AnthropicAPIClient.spread.
    cbn [AnthropicConfig.apiKey AnthropicConfig.baseUrl AnthropicConfig.timeout].
    destruct (env "ANTHROPIC_BASE_URL") as [url|]; cbn [truthy_opt];
      [destruct (truthy url)|];
      (destruct (env "ANTHROPIC_TIMEOUT") as [ms|]; [destruct (truthy ms)|]);
      reflexivity.
  - cbn [construct]. unfold Discovering.constructor. rewrite Hkey, Htruthy.
    unfold AnthropicAPIClient.getAvailableModels, client_get.
    cbn [this AnthropicProvider.apiClient].
    unfold AnthropicAPIClient.constructor, AnthropicAPIClient.spread.
    reflexivity.
Qed.

Lemma constructed_client_settings_witness :
  (exists client,
      AnthropicProvider.apiClient
        (this (construct SyncSeeding no_parse offline env_with_key))
      = Some client
      /\ AnthropicAPIClient.baseUrl client = Some default_baseUrl)
  /\ (exists client,
         AnthropicProvider.apiClient
           (this (construct BackgroundDiscovery no_parse offline env_with_key))
         = Some client
         /\ AnthropicAPIClient.baseUrl client = None).
Proof.
  destruct (constructed_client_settings no_parse offline env_with_key "sk-test"
              eq_refl) as [Hfirst Hsecond]; [discriminate|].
  split; eexists; (split; [eassumption | reflexivity]).
Defined.

(** X9.  [configure] with a configuration whose API key is missing or
    empty throws ['Anthropic API key is required'].  The provider's
    configuration has been replaced by then; its client and its registry
    are untouched and nothing was requested.  This holds for both
    versions. *)
Theorem configure_requires_api_key
    (v : Version) (axios : Transport) (config : ProviderConfig.t)
    (this : AnthropicProvider.t) (log : list HttpCall) :
  ProviderConfig.apiKey config = None \/ ProviderConfig.apiKey config = Some "" ->
  configure v axios config this log
  = (Throw (Error "Anthropic API key is required"),
     {| AnthropicProvider.config := Some config;
        AnthropicProvider.apiClient := AnthropicProvider.apiClient this;
        AnthropicProvider.discoveredModels :=
          AnthropicProvider.discoveredModels this |},
     log).
Proof.
  intros [H|H]; destruct v; cbn [configure];
    unfold Seeded.configure, Discovering.configure; rewrite H; reflexivity.
Qed.

Lemma configure_requires_api_key_witness :
  fst (fst (configure SyncSeeding offline (ProviderConfig.mk (Some "") None None)
              (this (construct SyncSeeding no_parse offline env_with_key)) []))
  = Throw (Error "Anthropic API key is required")
  /\ AnthropicProvider.apiClient
       (snd (fst (configure SyncSeeding offline
                    (ProviderConfig.mk (Some "") None None)
                    (this (construct SyncSeeding no_parse offline env_with_key))
                    [])))
     = Some test_client.
Proof.
  rewrite (configure_requires_api_key SyncSeeding offline
             (ProviderConfig.mk (Some "") None None)
             (this (construct SyncSeeding no_parse offline env_with_key)) []
             (or_intror eq_refl)).
  split; reflexivity.
Defined.

(** X10.  [configure] of the first version with a non-empty API key
    returns without requesting anything.  It installs a client whose base
    URL and timeout are the configuration's, undefined when the
    configuration has none, and it seeds the known models only when the
    registry is empty: a registry that holds anything is left as it
    is. *)
Theorem seeded_configure_outcome
    (config : ProviderConfig.t) (this : AnthropicProvider.t)
    (log : list HttpCall) (apiKey : string) :
  ProviderConfig.apiKey config = Some apiKey ->
  apiKey <> "" ->
  Seeded.configure config this log
  = (Return tt,
     {| AnthropicProvider.config := Some config;
        AnthropicProvider.apiClient :=
          Some {| AnthropicAPIClient.apiKey := apiKey;
                  AnthropicAPIClient.baseUrl := ProviderConfig.baseUrl config;
                  AnthropicAPIClient.timeout := ProviderConfig.timeout config |};
        AnthropicProvider.discoveredModels :=
          match AnthropicProvider.discoveredModels this with
          | [] => known_registry
          | _ :: _ => AnthropicProvider.discoveredModels this
          end |},
     log).
Proof.
  intros Hkey Hne. unfold Seeded.configure.
  rewrite Hkey, (truthy_nonempty apiKey Hne). cbn [negb].
  cbn [AnthropicProvider.discoveredModels AnthropicProvider.config
       AnthropicProvider.apiClient].
  destruct (AnthropicProvider.discoveredModels this) as [|entry rest] eqn:Hm;
    reflexivity.
Qed.

Lemma seeded_configure_outcome_witness :
  JSMap.keys
    (AnthropicProvider.discoveredModels
       (snd (fst (Seeded.configure key_config AnthropicProvider.fresh []))))
  = Seeded.knownModels
  /\ snd (Seeded.configure key_config AnthropicProvider.fresh []) = [].
Proof.
  rewrite (seeded_configure_outcome key_config AnthropicProvider.fresh []
             "sk-test" eq_refl);
    [split; reflexivity | discriminate].
Defined.

(** X11.  [configure] of the second version with a non-empty API key
    returns normally whatever the transport does.  It installs the client
    built from the configuration, makes one GET of [/models] and leaves
    the registry non-empty. *)
Theorem discovering_configure_outcome
    (axios : Transport) (config : ProviderConfig.t)
    (this : AnthropicProvider.t) (log : list HttpCall) (apiKey : string) :
  ProviderConfig.apiKey config = Some apiKey ->
  apiKey <> "" ->
  let out := Discovering.configure axios config this log in
  fst (fst out) = Return tt
  /\ snd out = log ++ [HttpGet "/models"]
  /\ AnthropicProvider.config (snd (fst out)) = Some config
  /\ AnthropicProvider.apiClient (snd (fst out))
     = Some {| AnthropicAPIClient.apiKey := apiKey;
               AnthropicAPIClient.baseUrl := ProviderConfig.baseUrl config;
               AnthropicAPIClient.timeout := ProviderConfig.timeout config |}
  /\ AnthropicProvider.discoveredModels (snd (fst out)) <> [].
Proof.
  intros Hkey Hne out. subst out. unfold Discovering.configure.
  rewrite Hkey, (truthy_nonempty apiKey Hne). cbn [negb].
  erewrite discoverModels_unfold by reflexivity. cbn [fst snd].
  split; [apply discoverModels_resume_returns|]. split; [reflexivity|].
  match goal with
  | |- context [Discovering.discoverModels_resume ?l ?p] =>
      pose proof (discoverModels_resume_not_empty l p) as Hnonempty;
      assert (Hsame : AnthropicProvider.config
                        (snd (Discovering.discoverModels_resume l p))
                      = AnthropicProvider.config p
                      /\ AnthropicProvider.apiClient
                           (snd (Discovering.discoverModels_resume l p))
                         = AnthropicProvider.apiClient p)
  end.
  { unfold Discovering.discoverModels_resume.
    match goal with
    | |- context [match ?l with Return _ => _ | Throw _ => _ end] =>
        destruct l as [[[|model models]|]|thrown]
    end; split; reflexivity. }
  destruct Hsame as [-> ->].
  split; [reflexivity|]. split; [reflexivity | exact Hnonempty].
Qed.

Lemma discovering_configure_outcome_witness :
  let out := Discovering.configure offline key_config AnthropicProvider.fresh [] in
  fst (fst out) = Return tt
  /\ snd out = [HttpGet "/models"]
  /\ AnthropicProvider.discoveredModels (snd (fst out)) <> [].
Proof.
  destruct (discovering_configure_outcome offline key_config
              AnthropicProvider.fresh [] "sk-test" eq_refl)
    as (Hreturn & Hlog & _ & _ & Hnonempty); [discriminate|].
  split; [exact Hreturn|]. split; [exact Hlog | exact Hnonempty].
Defined.

(** ** A provider's lifetime *)

Lemma run_invariant (P : World -> Prop) v axios calls w :
  (forall c w', P w' -> P (perform v axios c w')) ->
  P w -> P (run v axios calls w).
Proof.
  intros Hstep. unfold run. revert w.
  induction calls as [|c calls IH]; intros w Hw; simpl; [exact Hw|].
  apply IH, Hstep, Hw.
Qed.

Lemma resume_keeps_client listing this :
  AnthropicProvider.apiClient (snd (Discovering.discoverModels_resume listing this))
  = AnthropicProvider.apiClient this.
Proof.
  unfold Discovering.discoverModels_resume.
  destruct listing as [[[|model models]|]|thrown]; reflexivity.
Qed.

Lemma discoverModels_keeps_client axios this log :
  AnthropicProvider.apiClient (snd (fst (Discovering.discoverModels axios this log)))
  = AnthropicProvider.apiClient this.
Proof.
  destruct (AnthropicProvider.apiClient this) as [client|] eqn:Hclient.
  - rewrite (discoverModels_unfold axios this log client Hclient). cbn [fst snd].
    rewrite resume_keeps_client. exact Hclient.
  - unfold Discovering.discoverModels. rewrite Hclient. exact Hclient.
Qed.

Lemma resume_reads_registry listing this this' :
  AnthropicProvider.discoveredModels this
  = AnthropicProvider.discoveredModels this' ->
  AnthropicProvider.discoveredModels
    (snd (Discovering.discoverModels_resume listing this))
  = AnthropicProvider.discoveredModels
      (snd (Discovering.discoverModels_resume listing this')).
Proof.
  intros H. unfold Discovering.discoverModels_resume,
    Discovering.initializeFallbackModels, AnthropicProvider.with_models.
  destruct listing as [[[|model models]|]|thrown];
    cbn [length Nat.eqb snd AnthropicProvider.discoveredModels];
    now rewrite H.
Qed.

(** What [configure] does to the client and to the registry. *)
Lemma configure_cases v axios config this log :
  (AnthropicProvider.apiClient (snd (fst (configure v axios config this log)))
   = AnthropicProvider.apiClient this
   /\ AnthropicProvider.discoveredModels
        (snd (fst (configure v axios config this log)))
      = AnthropicProvider.discoveredModels this
   /\ snd (configure v axios config this log) = log)
  \/ (AnthropicProvider.apiClient (snd (fst (configure v axios config this log)))
      <> None
      /\ match v with
         | SyncSeeding =>
             snd (configure v axios config this log) = log
             /\ AnthropicProvider.discoveredModels
                  (snd (fst (configure v axios config this log)))
                = match AnthropicProvider.discoveredModels this with
                  | [] => known_registry
                  | _ :: _ => AnthropicProvider.discoveredModels this
                  end
         | BackgroundDiscovery =>
             snd (configure v axios config this log) = log ++ [HttpGet "/models"]
             /\ exists listing,
                  AnthropicProvider.discoveredModels
                    (snd (fst (configure v axios config this log)))
                  = AnthropicProvider.discoveredModels
                      (snd (Discovering.discoverModels_resume listing this))
         end).
Proof.
  destruct v; cbn [configure]; unfold Seeded.configure, Discovering.configure.
  - destruct (ProviderConfig.apiKey config) as [apiKey|];
      [|left; repeat split; reflexivity].
    destruct (truthy apiKey); cbn [negb fst snd];
      [|left; repeat split; reflexivity].
    right. cbn [AnthropicProvider.discoveredModels].
    destruct (AnthropicProvider.discoveredModels this) as [|entry rest] eqn:Hm;
      cbn [JSMap.size length Nat.eqb]; (split; [discriminate|]);
      split; reflexivity.
  - destruct (ProviderConfig.apiKey config) as [apiKey|];
      [|left; repeat split; reflexivity].
    destruct (truthy apiKey); cbn [negb fst snd];
      [|left; repeat split; reflexivity].
    right. rewrite discoverModels_keeps_client.
    split; [discriminate|].
    erewrite discoverModels_unfold by reflexivity. cbn [fst snd].
    split; [reflexivity|]. eexists.
    apply resume_reads_registry. reflexivity.
Qed.

(** The three kinds of call: a query leaves the provider as it is,
    [Configure] configures it, [Settle] resumes the pending discovery. *)
Lemma perform_cases v axios c w :
  (this (perform v axios c w) = this w
   /\ background (perform v axios c w) = background w)
  \/ (exists config,
        c = Configure config
        /\ this (perform v axios c w)
           = snd (fst (configure v axios config (this w) (net w)))
        /\ net (perform v axios c w)
           = snd (configure v axios config (this w) (net w))
        /\ background (perform v axios c w) = background w)
  \/ (exists listing,
        c = Settle
        /\ background w = Some listing
        /\ this (perform v axios c w)
           = snd (Discovering.discoverModels_resume listing (this w))
        /\ net (perform v axios c w) = net w
        /\ background (perform v axios c w) = None).
Proof.
  destruct c; cbn [perform].
  - right. left. exists config.
    destruct (configure v axios config (this w) (net w)) as [[result this'] log'].
    repeat split; reflexivity.
  - left. destruct (AnthropicProvider.isAvailable axios (this w) (net w)).
    split; reflexivity.
  - left.
    destruct (AnthropicProvider.createTextToTextModel (this w) modelId (net w)).
    split; reflexivity.
  - left. destruct (AnthropicProvider.getModel (this w) modelId (net w)).
    split; reflexivity.
  - left. destruct (AnthropicProvider.apiClient (this w)) as [client|];
      [|split; reflexivity].
    destruct (AnthropicAPIClient.generateText _ _ _ _ _ _). split; reflexivity.
  - destruct (background w) as [listing|] eqn:Hb.
    + right. right. exists listing.
      destruct (Discovering.discoverModels_resume listing (this w)).
      repeat split; reflexivity.
    + left. split; [reflexivity | exact Hb].
Qed.

(** A call makes no request, or one GET of [/models], or, when it is a
    [GenerateText], one POST to [/messages]. *)
Lemma perform_net v axios c w :
  net (perform v axios c w) = net w
  \/ net (perform v axios c w) = net w ++ [HttpGet "/models"]
  \/ (is_generate c = true
      /\ exists request,
           net (perform v axios c w) = net w ++ [HttpPost "/messages" request]).
Proof.
  destruct c; cbn [perform].
  - destruct (configure_cases v axios config (this w) (net w))
      as [(_ & _ & Hlog)|[_ Hcase]];
      destruct (configure v axios config (this w) (net w))
        as [[result this'] log']; cbn [net snd] in *.
    + now left.
    + destruct v; destruct Hcase as [Hlog _]; [now left | right; now left].
  - unfold AnthropicProvider.isAvailable, AnthropicAPIClient.testConnection,
      client_get.
    destruct (AnthropicProvider.apiClient (this w)); [|now left].
    destruct (on_get axios (net w) "/models"); right; now left.
  - unfold AnthropicProvider.createTextToTextModel.
    destruct (AnthropicProvider.apiClient (this w)); [|now left].
    destruct (negb _); now left.
  - unfold AnthropicProvider.getModel, AnthropicProvider.createTextToTextModel.
    destruct (AnthropicProvider.apiClient (this w)); [|now left].
    destruct (negb _); now left.
  - destruct (AnthropicProvider.apiClient (this w)) as [client|]; [|now left].
    right. right. split; [reflexivity|].
    unfold AnthropicAPIClient.generateText, client_post. cbn [net].
    eexists. reflexivity.
  - destruct (background w) as [listing|]; [|now left].
    destruct (Discovering.discoverModels_resume listing (this w)). now left.
Qed.

Lemma construct_net v parseInt axios env :
  net (construct v parseInt axios env) = []
  \/ net (construct v parseInt axios env) = [HttpGet "/models"].
Proof.
  destruct v; cbn [construct].
  - left. reflexivity.
  - unfold Discovering.constructor.
    destruct (env "ANTHROPIC_API_KEY") as [apiKey|]; [|now left].
    destruct (truthy apiKey); [|now left]. right. reflexivity.
Qed.

Lemma client_precedes_models_construct v parseInt axios env :
  client_precedes_models (construct v parseInt axios env).
Proof.
  unfold client_precedes_models. destruct v; cbn [construct].
  - unfold Seeded.constructor.
    destruct (env "ANTHROPIC_API_KEY") as [apiKey|]; [|now split].
    destruct (truthy apiKey); [|now split]. intros H. discriminate H.
  - unfold Discovering.constructor.
    destruct (env "ANTHROPIC_API_KEY") as [apiKey|]; [|now split].
    destruct (truthy apiKey); [|now split]. intros H. discriminate H.
Qed.

Lemma client_precedes_models_perform v axios c w :
  client_precedes_models w -> client_precedes_models (perform v axios c w).
Proof.
  unfold client_precedes_models. intros Hw.
  destruct (perform_cases v axios c w)
    as [[-> ->]|[(config & _ & -> & _ & ->)|(listing & _ & Hb & -> & _ & ->)]].
  - exact Hw.
  - destruct (configure_cases v axios config (this w) (net w))
      as [(-> & -> & _)|[Hclient _]]; [exact Hw | congruence].
  - rewrite resume_keeps_client. intros Hnone.
    destruct (Hw Hnone) as [_ Hnoback]. congruence.
Qed.

(** X12.  In every state a provider of either version reaches, a model
    that [supportsTextToTextModel] accepts can be had: the provider has a
    client, and [createTextToTextModel] and [getModel] return the handle
    bound to that client and that model, without requesting anything. *)
Theorem supported_model_is_created
    (v : Version) (parseInt : string -> float) (axios : Transport) (env : Env)
    (w : World) (modelId : string) :
  reachable v parseInt axios env w ->
  AnthropicProvider.supportsTextToTextModel (this w) modelId = true ->
  exists client,
    AnthropicProvider.apiClient (this w) = Some client
    /\ forall log,
         AnthropicProvider.createTextToTextModel (this w) modelId log
         = (Return (AnthropicTextToTextModel.mk client modelId), log)
         /\ AnthropicProvider.getModel (this w) modelId log
            = (Return (AnthropicTextToTextModel.mk client modelId), log).
Proof.
  intros [calls ->] Hsupported.
  assert (Hinv : client_precedes_models
                   (run v axios calls (construct v parseInt axios env))).
  { apply run_invariant.
    - intros c w'. apply client_precedes_models_perform.
    - apply client_precedes_models_construct. }
  set (w := run v axios calls (construct v parseInt axios env)) in *.
  destruct (AnthropicProvider.apiClient (this w)) as [client|] eqn:Hclient.
  - exists client. split; [reflexivity|]. intros log.
    unfold AnthropicProvider.getModel, AnthropicProvider.createTextToTextModel.
    rewrite Hclient, Hsupported. split; reflexivity.
  - destruct (Hinv Hclient) as [Hempty _].
    unfold AnthropicProvider.supportsTextToTextModel in Hsupported.
    rewrite Hempty in Hsupported. discriminate Hsupported.
Qed.

Lemma supported_model_is_created_witness :
  exists client,
    AnthropicProvider.apiClient (this after_failed_discovery) = Some client
    /\ AnthropicProvider.getModel (this after_failed_discovery)
         "claude-3-opus-latest" []
       = (Return (AnthropicTextToTextModel.mk client "claude-3-opus-latest"), []).
Proof.
  destruct (supported_model_is_created BackgroundDiscovery no_parse recovering
              env_with_key after_failed_discovery "claude-3-opus-latest")
    as (client & Hclient & Hcreate).
  - exists [Settle]. reflexivity.
  - reflexivity.
  - exists client. split; [exact Hclient | apply (Hcreate [])].
Defined.

(** X13.  The first version never changes its registry after seeding it.
    In every state it reaches no discovery is under way, and the registry
    is empty, when there is no client, or is the registry of the known
    models, when there is one; so a model is supported exactly when the
    provider has a client and the model is one of the known models. *)
Theorem seeded_registry_is_fixed
    (parseInt : string -> float) (axios : Transport) (env : Env) (w : World) :
  reachable SyncSeeding parseInt axios env w ->
  background w = None
  /\ ((AnthropicProvider.apiClient (this w) = None
       /\ AnthropicProvider.discoveredModels (this w) = [])
      \/ (AnthropicProvider.apiClient (this w) <> None
          /\ AnthropicProvider.discoveredModels (this w) = known_registry))
  /\ forall modelId,
       AnthropicProvider.supportsTextToTextModel (this w) modelId = true
       <-> AnthropicProvider.apiClient (this w) <> None
           /\ In modelId Seeded.knownModels.
Proof.
  intros [calls ->].
  assert (Hinv : (fun w =>
            background w = None
            /\ ((AnthropicProvider.apiClient (this w) = None
                 /\ AnthropicProvider.discoveredModels (this w) = [])
                \/ (AnthropicProvider.apiClient (this w) <> None
                    /\ AnthropicProvider.discoveredModels (this w)
                       = known_registry)))
           (run SyncSeeding axios calls (construct SyncSeeding parseInt axios env))).
  { apply run_invariant.
    - intros c w' [Hb Hreg].
      destruct (perform_cases SyncSeeding axios c w')
        as [[-> ->]|[(config & _ & -> & _ & ->)|(listing & _ & Hsome & _)]].
      + now split.
      + split; [exact Hb|].
        destruct (configure_cases SyncSeeding axios config (this w') (net w'))
          as [(-> & -> & _)|[Hclient [_ ->]]]; [exact Hreg|].
        right. split; [exact Hclient|].
        destruct Hreg as [[_ ->]|[_ ->]]; reflexivity.
      + congruence.
    - cbn [construct]. unfold Seeded.constructor. cbn [background this].
      split; [reflexivity|].
      destruct (env "ANTHROPIC_API_KEY") as [apiKey|]; [|now left].
      destruct (truthy apiKey); [|now left].
      right. split; [discriminate | reflexivity]. }
  cbn beta in Hinv. destruct Hinv as [Hb Hreg].
  split; [exact Hb|]. split; [exact Hreg|].
  intros modelId. unfold AnthropicProvider.supportsTextToTextModel.
  destruct Hreg as [[Hnone ->]|[Hsome ->]].
  - split; [discriminate | intros [H _]; congruence].
  - unfold known_registry, Seeded.initializeKnownClaudeModels,
      AnthropicProvider.with_models.
    cbn [AnthropicProvider.discoveredModels AnthropicProvider.fresh].
    rewrite has_set_each, map_id. cbn [JSMap.has JSMap.empty].
    split; [intros [H|H]; [discriminate | now split] | intros [_ H]; now right].
Qed.

Lemma seeded_registry_is_fixed_witness :
  AnthropicProvider.discoveredModels
    (this (run SyncSeeding offline
             [Configure key_config; Settle; IsAvailable]
             (construct SyncSeeding no_parse offline env_without_key)))
  = known_registry.
Proof.
  destruct (seeded_registry_is_fixed no_parse offline env_without_key
              (run SyncSeeding offline
                 [Configure key_config; Settle; IsAvailable]
                 (construct SyncSeeding no_parse offline env_without_key)))
    as (_ & [[Hnone _]|[_ Hknown]] & _).
  - exists [Configure key_config; Settle; IsAvailable]. reflexivity.
  - discriminate Hnone.
  - exact Hknown.
Defined.

Lemma isAvailable_net axios this log :
  snd (AnthropicProvider.isAvailable axios this log) = log
  \/ snd (AnthropicProvider.isAvailable axios this log)
     = log ++ [HttpGet "/models"].
Proof.
  unfold AnthropicProvider.isAvailable, AnthropicAPIClient.testConnection,
    client_get.
  destruct (AnthropicProvider.apiClient this); [|now left].
  destruct (on_get axios log "/models"); right; reflexivity.
Qed.

(** What one invocation adds to the log. *)
Lemma invoke_net v axios i w :
  exists added,
    net (invoke v axios i w) = net w ++ added
    /\ length added <= 1
    /\ forallb own_traffic added = true
    /\ (generates i = false -> forallb is_get added = true).
Proof.
  assert (Hprobe : forall log',
             log' = net w \/ log' = net w ++ [HttpGet "/models"] ->
             exists added,
               log' = net w ++ added
               /\ length added <= 1
               /\ forallb own_traffic added = true
               /\ (generates i = false -> forallb is_get added = true)).
  { intros log' [-> | ->].
    - exists []. rewrite app_nil_r. repeat split; simpl; lia.
    - exists [HttpGet "/models"]. repeat split; simpl; lia. }
  destruct i as [c|uptime| |]; cbn [invoke].
  - destruct (perform_net v axios c w) as [H | [H | (Hgen & request & H)]].
    + apply Hprobe. now left.
    + apply Hprobe. now right.
    + exists [HttpPost "/messages" request].
      split; [exact H|]. split; [simpl; lia|]. split; [reflexivity|].
      cbn [generates]. congruence.
  - unfold AnthropicProvider.getHealth.
    pose proof (isAvailable_net axios (this w) (net w)) as H.
    destruct (AnthropicProvider.isAvailable axios (this w) (net w)).
    apply Hprobe, H.
  - unfold AnthropicProvider.startService.
    pose proof (isAvailable_net axios (this w) (net w)) as H.
    destruct (AnthropicProvider.isAvailable axios (this w) (net w)).
    apply Hprobe, H.
  - unfold AnthropicProvider.getServiceStatus.
    pose proof (isAvailable_net axios (this w) (net w)) as H.
    destruct (AnthropicProvider.isAvailable axios (this w) (net w)).
    apply Hprobe, H.
Qed.

Lemma invoke_all_traffic v axios invocations w :
  forallb own_traffic (net w) = true ->
  forallb own_traffic (net (invoke_all v axios invocations w)) = true
  /\ length (net (invoke_all v axios invocations w))
     <= length invocations + length (net w)
  /\ (forallb is_get (net w) = true ->
      forallb (fun i => negb (generates i)) invocations = true ->
      forallb is_get (net (invoke_all v axios invocations w)) = true).
Proof.
  unfold invoke_all. revert w.
  induction invocations as [|i invocations IH]; intros w Hown; cbn [fold_left].
  - split; [exact Hown|]. split; [simpl; lia | intros Hget _; exact Hget].
  - destruct (invoke_net v axios i w) as (added & Hnet & Hlen & Hadded & Hget').
    assert (Hown' : forallb own_traffic (net (invoke v axios i w)) = true)
      by (rewrite Hnet, forallb_app, Hown, Hadded; reflexivity).
    destruct (IH _ Hown') as (H1 & H2 & H3).
    rewrite Hnet, length_app in H2.
    split; [exact H1|]. split; [simpl; lia|].
    intros Hget Hall. cbn [forallb] in Hall.
    apply andb_true_iff in Hall. destruct Hall as [Hi Hrest].
    apply negb_true_iff in Hi. apply H3; [|exact Hrest].
    rewrite Hnet, forallb_app, Hget, (Hget' Hi). reflexivity.
Qed.

(** X14.  The requests a provider of either version makes.  The
    constructor makes no request or one GET of [/models].  One invocation
    of [configure], [isAvailable], [createTextToTextModel], [getModel],
    [generateText], [getHealth], [startService] or [getServiceStatus], or
    the arrival of the background discovery's reply, in any state, adds
    at most one request to the log: a GET of [/models] or a POST to
    [/messages], and a GET unless the invocation is [generateText].
    Hence after any sequence of invocations every request in the log is
    of these two kinds, there is at most one request per invocation and
    one for the constructor, and nothing was posted unless text was
    generated. *)
Theorem provider_traffic
    (v : Version) (parseInt : string -> float) (axios : Transport) (env : Env) :
  (net (construct v parseInt axios env) = []
   \/ net (construct v parseInt axios env) = [HttpGet "/models"])
  /\ (forall i w,
         exists added,
           net (invoke v axios i w) = net w ++ added
           /\ length added <= 1
           /\ forallb own_traffic added = true
           /\ (generates i = false -> forallb is_get added = true))
  /\ (forall invocations,
         let w := invoke_all v axios invocations
                             (construct v parseInt axios env) in
         forallb own_traffic (net w) = true
         /\ length (net w) <= length invocations + 1
         /\ (forallb (fun i => negb (generates i)) invocations = true ->
             forallb is_get (net w) = true)).
Proof.
  split; [apply construct_net|]. split; [intros i w; apply invoke_net|].
  intros invocations w. subst w.
  assert (Hstart : forallb own_traffic (net (construct v parseInt axios env)) = true
                   /\ length (net (construct v parseInt axios env)) <= 1
                   /\ forallb is_get (net (construct v parseInt axios env)) = true).
  { destruct (construct_net v parseInt axios env) as [-> | ->];
      repeat split; simpl; lia. }
  destruct Hstart as (Hown & Hlen & Hget).
  destruct (invoke_all_traffic v axios invocations _ Hown) as (H1 & H2 & H3).
  split; [exact H1|]. split; [lia | apply H3, Hget].
Qed.

Lemma provider_traffic_witness :
  forallb is_get
    (net (invoke_all BackgroundDiscovery recovering
            [Invoke Settle; Invoke (Configure key_config);
             InvokeGetHealth 0%float; Invoke (GetModel "claude-sonnet-4");
             InvokeGetServiceStatus; InvokeStartService; Invoke IsAvailable]
            (construct BackgroundDiscovery no_parse recovering env_with_key)))
  = true
  /\ length
       (net (invoke_all BackgroundDiscovery recovering
               [Invoke Settle; Invoke (Configure key_config);
                InvokeGetHealth 0%float; Invoke (GetModel "claude-sonnet-4");
                InvokeGetServiceStatus; InvokeStartService; Invoke IsAvailable]
               (construct BackgroundDiscovery no_parse recovering env_with_key)))
     = 6.
Proof.
  split; [|reflexivity].
  apply (proj2 (proj2 (provider_traffic BackgroundDiscovery no_parse recovering
                         env_with_key))
               [Invoke Settle; Invoke (Configure key_config);
                InvokeGetHealth 0%float; Invoke (GetModel "claude-sonnet-4");
                InvokeGetServiceStatus; InvokeStartService; Invoke IsAvailable]).
  reflexivity.
Defined.

(** ** What every change of the registry preserves *)

Lemma keys_set {V : Type} (k : string) (v : V) (m : JSMap.t V) :
  JSMap.keys (JSMap.set k v m)
  = if JSMap.has k m then JSMap.keys m else JSMap.keys m ++ [k].
Proof.
  induction m as [|[k0 v0] rest IH]; cbn [JSMap.set JSMap.has]; [reflexivity|].
  destruct (String.eqb k k0); [reflexivity|].
  unfold JSMap.keys in *. cbn [map fst]. rewrite IH.
  destruct (JSMap.has k rest); reflexivity.
Qed.

Section SetClosed.
Variable P : JSMap.t ProviderModel.t -> Prop.
Hypothesis P_set : forall k v m, P m -> P (JSMap.set k v m).

Lemma set_each_closed {X : Type} (key : X -> string) (val : X -> ProviderModel.t)
    (xs : list X) (m : JSMap.t ProviderModel.t) :
  P m -> P (JSMap.set_each key val xs m).
Proof.
  unfold JSMap.set_each. revert m.
  induction xs as [|x xs IH]; intros m Hm; cbn [fold_left]; [exact Hm|].
  apply IH, P_set, Hm.
Qed.

Lemma resume_closed listing this :
  P (AnthropicProvider.discoveredModels this) ->
  P (AnthropicProvider.discoveredModels
       (snd (Discovering.discoverModels_resume listing this))).
Proof.
  intros H. unfold Discovering.discoverModels_resume,
    Discovering.initializeFallbackModels, AnthropicProvider.with_models.
  destruct listing as [[[|model models]|]|thrown];
    cbn [length Nat.eqb snd AnthropicProvider.discoveredModels];
    apply set_each_closed, H.
Qed.

Lemma perform_closed v axios c w :
  P (AnthropicProvider.discoveredModels (this w)) ->
  P (AnthropicProvider.discoveredModels (this (perform v axios c w))).
Proof.
  intros H.
  destruct (perform_cases v axios c w)
    as [[-> _]|[(config & _ & -> & _)|(listing & _ & _ & -> & _)]].
  - exact H.
  - destruct (configure_cases v axios config (this w) (net w))
      as [(_ & -> & _)|[_ Hcase]]; [exact H|].
    destruct v.
    + destruct Hcase as [_ ->].
      destruct (AnthropicProvider.discoveredModels (this w)) as [|e rest];
        [|exact H].
      apply (set_each_closed (fun id => id) Seeded.known_entry). exact H.
    + destruct Hcase as [_ [listing ->]]. apply resume_closed, H.
  - apply resume_closed, H.
Qed.

Lemma run_closed v axios calls w :
  P (AnthropicProvider.discoveredModels (this w)) ->
  P (AnthropicProvider.discoveredModels (this (run v axios calls w))).
Proof.
  apply (run_invariant
           (fun w => P (AnthropicProvider.discoveredModels (this w)))).
  intros c w'. apply perform_closed.
Qed.

Lemma construct_closed v parseInt axios env :
  P [] ->
  P (AnthropicProvider.discoveredModels (this (construct v parseInt axios env))).
Proof.
  intros H. destruct v; cbn [construct].
  - unfold Seeded.constructor.
    destruct (env "ANTHROPIC_API_KEY") as [apiKey|]; [|exact H].
    destruct (truthy apiKey); [|exact H].
    apply (set_each_closed (fun id => id) Seeded.known_entry). exact H.
  - unfold Discovering.constructor.
    destruct (env "ANTHROPIC_API_KEY") as [apiKey|]; [|exact H].
    destruct (truthy apiKey); [|exact H].
    destruct (AnthropicAPIClient.getAvailableModels _ _ _). exact H.
Qed.

End SetClosed.

Lemma NoDup_keys_set (k : string) (v : ProviderModel.t)
    (m : JSMap.t ProviderModel.t) :
  NoDup (JSMap.keys m) -> NoDup (JSMap.keys (JSMap.set k v m)).
Proof.
  intros H. rewrite keys_set.
  destruct (JSMap.has k m) eqn:Hhas; [exact H|].
  apply NoDup_app; [exact H | repeat constructor; intros [] |].
  intros x Hx [<-|[]].
  apply has_keys in Hx. congruence.
Qed.

(** X15.  In every state a provider of either version reaches the keys of
    the registry are pairwise distinct, so [getSupportedTextToTextModels]
    lists no model twice, and [models] has one descriptor per key. *)
Theorem registry_keys_distinct
    (v : Version) (parseInt : string -> float) (axios : Transport) (env : Env)
    (w : World) :
  reachable v parseInt axios env w ->
  NoDup (JSMap.keys (AnthropicProvider.discoveredModels (this w)))
  /\ NoDup (AnthropicProvider.getSupportedTextToTextModels (this w))
  /\ length (AnthropicProvider.models (this w))
     = length (JSMap.keys (AnthropicProvider.discoveredModels (this w))).
Proof.
  intros [calls ->].
  assert (H : NoDup (JSMap.keys
                       (AnthropicProvider.discoveredModels
                          (this (run v axios calls
                                   (construct v parseInt axios env)))))).
  { apply (run_closed (fun m => NoDup (JSMap.keys m)) NoDup_keys_set).
    apply (construct_closed (fun m => NoDup (JSMap.keys m)) NoDup_keys_set).
    constructor. }
  split; [exact H|]. split.
  - unfold AnthropicProvider.getSupportedTextToTextModels.
    apply NoDup_filter, H.
  - unfold AnthropicProvider.models, JSMap.values, JSMap.keys.
    now rewrite !length_map.
Qed.

Lemma registry_keys_distinct_witness :
  NoDup (AnthropicProvider.getSupportedTextToTextModels
           (this (run BackgroundDiscovery (serving ["claude-3-opus-latest";
                                                    "claude-3-opus-latest"] None)
                    [Settle; Configure key_config]
                    (construct BackgroundDiscovery no_parse
                       (serving ["claude-3-opus-latest";
                                 "claude-3-opus-latest"] None)
                       env_with_key)))).
Proof.
  apply (registry_keys_distinct BackgroundDiscovery no_parse
           (serving ["claude-3-opus-latest"; "claude-3-opus-latest"] None)
           env_with_key).
  exists [Settle; Configure key_config]. reflexivity.
Defined.

(** X16.  The registry only grows.  Over any sequence of calls, from any
    state, the keys the registry had stay where they were in the order of
    the registry and new keys come after them; so a model that was
    supported stays supported. *)
Theorem registry_only_grows
    (v : Version) (axios : Transport) (calls : list Call) (w : World) :
  (exists added,
      JSMap.keys (AnthropicProvider.discoveredModels (this (run v axios calls w)))
      = JSMap.keys (AnthropicProvider.discoveredModels (this w)) ++ added)
  /\ forall modelId,
       AnthropicProvider.supportsTextToTextModel (this w) modelId = true ->
       AnthropicProvider.supportsTextToTextModel
         (this (run v axios calls w)) modelId = true.
Proof.
  assert (H : exists added,
             JSMap.keys (AnthropicProvider.discoveredModels
                           (this (run v axios calls w)))
             = JSMap.keys (AnthropicProvider.discoveredModels (this w)) ++ added).
  { apply (run_closed
             (fun m => exists added,
                  JSMap.keys m
                  = JSMap.keys (AnthropicProvider.discoveredModels (this w))
                    ++ added)).
    - intros k e m [added Hm]. rewrite keys_set.
      destruct (JSMap.has k m); [now exists added|].
      exists (added ++ [k]). now rewrite Hm, app_assoc.
    - exists []. now rewrite app_nil_r. }
  split; [exact H|].
  intros modelId. unfold AnthropicProvider.supportsTextToTextModel.
  rewrite !has_keys. destruct H as [added ->]. intros Hin.
  apply in_or_app. now left.
Qed.

Lemma registry_only_grows_witness :
  AnthropicProvider.supportsTextToTextModel
    (this (run BackgroundDiscovery recovering [Configure key_config]
             after_failed_discovery))
    "claude-3-5-haiku-latest"
  = true.
Proof.
  apply (proj2 (registry_only_grows BackgroundDiscovery recovering
                  [Configure key_config] after_failed_discovery)).
  reflexivity.
Defined.

(** ** Looking descriptors up *)

Section SetEachLookup.
Context {V X : Type} (key : X -> string) (val : X -> V).

Lemma get_set_each_other k xs (m : JSMap.t V) :
  ~ In k (map key xs) ->
  JSMap.get k (JSMap.set_each key val xs m) = JSMap.get k m.
Proof.
  unfold JSMap.set_each. revert m.
  induction xs as [|x xs IH]; intros m Hk; cbn [fold_left]; [reflexivity|].
  rewrite IH by (intros H; apply Hk; now right).
  rewrite get_set.
  destruct (String.eqb_spec k (key x)) as [->|_]; [|reflexivity].
  exfalso. apply Hk. now left.
Qed.

Lemma get_set_each_last pre x post (m : JSMap.t V) :
  ~ In (key x) (map key post) ->
  JSMap.get (key x) (JSMap.set_each key val (pre ++ x :: post) m)
  = Some (val x).
Proof.
  intros Hlast. unfold JSMap.set_each. rewrite fold_left_app. cbn [fold_left].
  change (JSMap.get (key x)
            (JSMap.set_each key val post
               (JSMap.set (key x) (val x)
                  (fold_left (fun m x => JSMap.set (key x) (val x) m) pre m)))
          = Some (val x)).
  rewrite get_set_each_other by exact Hlast.
  rewrite get_set, String.eqb_refl. reflexivity.
Qed.

End SetEachLookup.

(** X17.  After a discovery whose listing is a non-empty array, an
    identifier of the listing maps to the descriptor built from the last
    listing entry that carries it, and every identifier that is not in
    the listing maps to what it mapped to before. *)
Theorem discovered_descriptors
    (this : AnthropicProvider.t) (models : list AnthropicModel.t) :
  models <> [] ->
  let registry :=
    AnthropicProvider.discoveredModels
      (snd (Discovering.discoverModels_resume (Return (Some models)) this)) in
  (forall before model after,
      models = before ++ model :: after ->
      ~ In (AnthropicModel.id model) (map AnthropicModel.id after) ->
      JSMap.get (AnthropicModel.id model) registry
      = Some (Discovering.discovered_entry model))
  /\ (forall id,
         ~ In id (map AnthropicModel.id models) ->
         JSMap.get id registry
         = JSMap.get id (AnthropicProvider.discoveredModels this)).
Proof.
  intros Hne registry. subst registry.
  unfold Discovering.discoverModels_resume.
  destruct models as [|first others]; [congruence|].
  cbn [length Nat.eqb snd AnthropicProvider.discoveredModels
       AnthropicProvider.with_models].
  split.
  - intros before model after -> Hlast. now apply get_set_each_last.
  - intros id Hid. now apply get_set_each_other.
Qed.

Lemma discovered_descriptors_witness :
  JSMap.get "claude-sonnet-4"
    (AnthropicProvider.discoveredModels
       (snd (Discovering.discoverModels_resume
               (Return (Some [AnthropicModel.mk "claude-sonnet-4" None None "model";
                              AnthropicModel.mk "claude-sonnet-4"
                                (Some "Claude Sonnet 4") None "model"]))
               AnthropicProvider.fresh)))
  = Some (Discovering.discovered_entry
            (AnthropicModel.mk "claude-sonnet-4" (Some "Claude Sonnet 4")
               None "model")).
Proof.
  apply (proj1 (discovered_descriptors AnthropicProvider.fresh
                  [AnthropicModel.mk "claude-sonnet-4" None None "model";
                   AnthropicModel.mk "claude-sonnet-4" (Some "Claude Sonnet 4")
                     None "model"]
                  ltac:(discriminate))
               [AnthropicModel.mk "claude-sonnet-4" None None "model"]
               (AnthropicModel.mk "claude-sonnet-4" (Some "Claude Sonnet 4")
                  None "model")
               []).
  - reflexivity.
  - intros [].
Defined.

(** X18.  In every state a provider of either version reaches,
    [getModelsForCapability] returns exactly the descriptors of the
    registry whose capability list includes the capability asked for:
    all of them for [TEXT_TO_TEXT], none for any other capability. *)
Theorem capability_lookup
    (v : Version) (parseInt : string -> float) (axios : Transport) (env : Env)
    (w : World) :
  reachable v parseInt axios env w ->
  forall capability descriptor,
    In descriptor (AnthropicProvider.getModelsForCapability capability (this w))
    <-> In descriptor (AnthropicProvider.models (this w))
        /\ includes (ProviderModel.capabilities descriptor) capability = true.
Proof.
  intros [calls ->] capability descriptor.
  assert (Huniform : uniform (AnthropicProvider.discoveredModels
                                (this (run v axios calls
                                         (construct v parseInt axios env)))))
    by apply uniform_run, uniform_construct.
  unfold AnthropicProvider.getModelsForCapability, AnthropicProvider.models.
  assert (Hcaps : In descriptor
                    (JSMap.values
                       (AnthropicProvider.discoveredModels
                          (this (run v axios calls
                                   (construct v parseInt axios env))))) ->
                  ProviderModel.capabilities descriptor = [TEXT_TO_TEXT]).
  { unfold JSMap.values. intros Hin. apply in_map_iff in Hin.
    destruct Hin as ([k d] & <- & Hentry).
    exact (proj2 (proj1 (Forall_forall _ _) Huniform _ Hentry)). }
  destruct (capability_eqb capability TEXT_TO_TEXT) eqn:Hcap.
  - split; [|now intros [H _]].
    intros Hin. split; [exact Hin|]. rewrite (Hcaps Hin).
    unfold includes. cbn [existsb]. now rewrite Hcap.
  - split; [intros []|].
    intros [Hin Hincl]. rewrite (Hcaps Hin) in Hincl.
    unfold includes in Hincl. cbn [existsb] in Hincl.
    rewrite Hcap in Hincl. discriminate Hincl.
Qed.

Lemma capability_lookup_witness :
  In (Seeded.known_entry "claude-2.1")
     (AnthropicProvider.getModelsForCapability TEXT_TO_TEXT
        (this (construct SyncSeeding no_parse offline env_with_key))).
Proof.
  apply (capability_lookup SyncSeeding no_parse offline env_with_key
           (construct SyncSeeding no_parse offline env_with_key)).
  - exists []. reflexivity.
  - split; [|reflexivity].
    cbn. do 9 right. now left.
Defined.

(** ** Display names *)

Lemma hyphens_to_spaces_length (s : string) :
  String.length (AnthropicProvider.hyphens_to_spaces s) = String.length s.
Proof. induction s as [|c s IH]; simpl; [reflexivity | now rewrite IH]. Qed.

Lemma hyphens_to_spaces_no_hyphen (s : string) :
  string_forall not_hyphen (AnthropicProvider.hyphens_to_spaces s) = true.
Proof.
  induction s as [|c s IH]; [reflexivity|].
  cbn [AnthropicProvider.hyphens_to_spaces string_forall]. rewrite IH.
  destruct (Ascii.eqb c "-") eqn:Hc; [reflexivity|].
  unfold not_hyphen. now rewrite Hc.
Qed.

(** One character of [capitalise_words]: it stays a word character or a
    non-word character as it was, it is no lower-case letter at the
    start of a word, and it is no hyphen unless it was one. *)
Lemma capitalise_char (inside : bool) (c : ascii) :
  let c' := if AnthropicProvider.is_word c && negb inside
            then AnthropicProvider.toUpperCase c else c in
  AnthropicProvider.is_word c' = AnthropicProvider.is_word c
  /\ inside || negb (is_lower c') = true
  /\ (not_hyphen c = true -> not_hyphen c' = true).
Proof.
  destruct inside;
    destruct c as [[] [] [] [] [] [] [] []];
    (split; [reflexivity|]); (split; [reflexivity|]); intros H; exact H.
Qed.

Lemma capitalise_words_length inside (s : string) :
  String.length (AnthropicProvider.capitalise_words inside s) = String.length s.
Proof.
  revert inside. induction s as [|c s IH]; intros inside; simpl;
    [reflexivity | now rewrite IH].
Qed.

Lemma capitalise_words_title_cased inside (s : string) :
  title_cased inside (AnthropicProvider.capitalise_words inside s) = true.
Proof.
  revert inside. induction s as [|c s IH]; intros inside; [reflexivity|].
  cbn [AnthropicProvider.capitalise_words title_cased].
  destruct (capitalise_char inside c) as (Hword & Hlower & _).
  cbv zeta in Hword, Hlower. rewrite Hword, Hlower, IH. reflexivity.
Qed.

Lemma capitalise_words_no_hyphen inside (s : string) :
  string_forall not_hyphen s = true ->
  string_forall not_hyphen (AnthropicProvider.capitalise_words inside s) = true.
Proof.
  revert inside. induction s as [|c s IH]; intros inside; [reflexivity|].
  cbn [AnthropicProvider.capitalise_words string_forall].
  intros H. apply andb_true_iff in H. destruct H as [Hc Hs].
  destruct (capitalise_char inside c) as (_ & _ & Hhyphen).
  cbv zeta in Hhyphen. rewrite (Hhyphen Hc), (IH _ Hs). reflexivity.
Qed.

(** X19.  For an identifier that is not in the name table and names no
    inherited member, [getModelDisplayName] returns a string as long as
    the identifier, without any hyphen, in which no word starts with a
    lower-case letter. *)
Theorem derived_display_name (modelId : string) :
  JSMap.get modelId AnthropicProvider.nameMap = None ->
  existsb (String.eqb modelId) AnthropicProvider.object_prototype_members
  = false ->
  exists name,
    AnthropicProvider.getModelDisplayName modelId = NameString name
    /\ String.length name = String.length modelId
    /\ string_forall not_hyphen name = true
    /\ title_cased false name = true.
Proof.
  intros Htable Hmember. unfold AnthropicProvider.getModelDisplayName.
  rewrite Htable, Hmember. eexists. split; [reflexivity|]. split; [|split].
  - now rewrite capitalise_words_length, hyphens_to_spaces_length.
  - apply capitalise_words_no_hyphen, hyphens_to_spaces_no_hyphen.
  - apply capitalise_words_title_cased.
Qed.

Lemma derived_display_name_witness :
  exists name,
    AnthropicProvider.getModelDisplayName "claude-sonnet-4" = NameString name
    /\ String.length name = 15
    /\ string_forall not_hyphen name = true
    /\ title_cased false name = true.
Proof.
  apply (derived_display_name "claude-sonnet-4"); reflexivity.
Defined.

(** X20.  The hard-coded lists agree with each other.  Every fallback
    model is a known model, there are fewer fallback models than known
    models, and every known model has an entry in the name table, so that
    the display name of a seeded or fallback descriptor is always the
    table's and never derived from the identifier. *)
Theorem model_lists_agree :
  (forall id, In id Discovering.fallbackModels -> In id Seeded.knownModels)
  /\ length Discovering.fallbackModels < length Seeded.knownModels
  /\ (forall id,
         In id Seeded.knownModels ->
         exists friendly,
           In (id, friendly) AnthropicProvider.nameMap
           /\ ProviderModel.name (Seeded.known_entry id) = NameString friendly
           /\ ProviderModel.name (Discovering.fallback_entry id)
              = NameString friendly).
Proof.
  split; [|split].
  - intros id H. cbn in H.
    repeat (destruct H as [<-|H]; [cbn; tauto|]). destruct H.
  - cbn. lia.
  - intros id H. cbn in H.
    repeat (destruct H as [<-|H];
            [eexists; split; [|split; reflexivity]; cbn; tauto|]).
    destruct H.
Qed.

Lemma model_lists_agree_witness :
  exists friendly,
    In ("claude-3-opus-latest", friendly) AnthropicProvider.nameMap
    /\ ProviderModel.name (Discovering.fallback_entry "claude-3-opus-latest")
       = NameString friendly.
Proof.
  destruct model_lists_agree as (Hsub & _ & Hnames).
  destruct (Hnames "claude-3-opus-latest") as (friendly & Hin & _ & Hname).
  - apply Hsub. cbn. tauto.
  - exists friendly. split; [exact Hin | exact Hname].
Defined.
